(** * pydle: the basic IRC client ([pydle/client.py])

  A shallow embedding of [BasicClient]: the entity store (channels and
  users), the connection life cycle with its reconnect policy, and the
  message dispatch with its dynamic handler resolution.  Python methods
  become computations in a state-and-exception monad over the attributes
  of the client object. *)

From Stdlib Require Import ZArith Lia Ascii String.
From stdpp Require Import gmap strings list fin_maps pretty.

Set Warnings "-clear-no-such-hyp".

Open Scope string_scope.
Open Scope Z_scope.

(** ** Python values used by the client *)

(** Exceptions the modelled code raises, plus [OtherError] for whatever a
    user handler or the transport may raise. *)
Inductive exn : Type :=
| ValueError (msg : string)
| KeyError (key : string)
| IndexError
| TypeError (msg : string)
| AttributeError (attr : string)
| NotImplementedError
| OtherError (name : string).

(** [{'users': set()}] *)
Record Channel : Type := mkChannel { ch_users : gset string }.

(** [{'nickname': .., 'username': .., 'realname': .., 'hostname': ..}];
    [None] is the unknown value of the three optional fields. *)
Record User : Type := mkUser {
  user_nickname : string;
  user_username : option string;
  user_realname : option string;
  user_hostname : option string
}.

(** A parsed message, as far as the client looks into it.  [command] is an
    [int] for numeric replies and a [str] otherwise. *)
Record Message : Type := mkMessage {
  command : Z + string;
  params : list string;
  source : option string;
  _raw : string;
  _valid : bool
}.

(** Modelled from the spec: the transport handle.  [pydle/connection.py] is
    not part of the sources; the client only uses the constructor
    [Connection(hostname, port, source_address=...)], the [connected]
    property, [hostname], and the [connect]/[disconnect] operations. *)
Record Connection : Type := mkConnection {
  conn_hostname : option string;
  conn_port : option Z;
  conn_source_address : option string;
  conn_connected : bool
}.

(** Arguments of logger calls. *)
Inductive PyVal : Type :=
| PyNone
| PyStr (s : string)
| PyInt (n : Z)
| PyList (l : list string).

Inductive Level : Type := DEBUG | WARNING | ERROR | EXCEPTION.

(** What the logger and [asyncio.sleep] leave behind: a logger call with
    its level, format string and arguments, or a sleep. *)
Inductive Event : Type :=
| Log (level : Level) (format : string) (args : list PyVal)
| Slept (delay : Z).

(** Coroutines handed to [asyncio.create_task]. *)
Inductive Task : Type :=
| Task_handle_forever
| Task_on_raw (message : Message).

Definition DEFAULT_NICKNAME : string := "<unregistered>".

(** ** The client object

    The attributes assigned by [_reset_attributes] and
    [_reset_connection_attributes], followed by two fields of the model:
    [trace] collects logger output and sleeps, [tasks] the coroutines
    scheduled with [asyncio.create_task], oldest first.  The [_pending]
    dictionary and the logger's name are never read by the modelled methods
    and are left out. *)
Record Client : Type := mkClient {
  channels : gmap string Channel;
  users : gmap string User;
  _receive_buffer : string;
  _handler_top_level : bool;
  nickname : string;
  network : option string;
  connection : option Connection;
  encoding : option string;
  _autojoin_channels : list string;
  _reconnect_attempts : Z;
  trace : list Event;
  tasks : list Task
}.

Definition set_channels (v : gmap string Channel) (s : Client) : Client :=
  mkClient v (users s) (_receive_buffer s) (_handler_top_level s) (nickname s)
    (network s) (connection s) (encoding s) (_autojoin_channels s)
    (_reconnect_attempts s) (trace s) (tasks s).

Definition set_users (v : gmap string User) (s : Client) : Client :=
  mkClient (channels s) v (_receive_buffer s) (_handler_top_level s) (nickname s)
    (network s) (connection s) (encoding s) (_autojoin_channels s)
    (_reconnect_attempts s) (trace s) (tasks s).

Definition set_receive_buffer (v : string) (s : Client) : Client :=
  mkClient (channels s) (users s) v (_handler_top_level s) (nickname s)
    (network s) (connection s) (encoding s) (_autojoin_channels s)
    (_reconnect_attempts s) (trace s) (tasks s).

Definition set_handler_top_level (v : bool) (s : Client) : Client :=
  mkClient (channels s) (users s) (_receive_buffer s) v (nickname s)
    (network s) (connection s) (encoding s) (_autojoin_channels s)
    (_reconnect_attempts s) (trace s) (tasks s).

Definition set_nickname (v : string) (s : Client) : Client :=
  mkClient (channels s) (users s) (_receive_buffer s) (_handler_top_level s) v
    (network s) (connection s) (encoding s) (_autojoin_channels s)
    (_reconnect_attempts s) (trace s) (tasks s).

Definition set_network (v : option string) (s : Client) : Client :=
  mkClient (channels s) (users s) (_receive_buffer s) (_handler_top_level s)
    (nickname s) v (connection s) (encoding s) (_autojoin_channels s)
    (_reconnect_attempts s) (trace s) (tasks s).

Definition set_connection (v : option Connection) (s : Client) : Client :=
  mkClient (channels s) (users s) (_receive_buffer s) (_handler_top_level s)
    (nickname s) (network s) v (encoding s) (_autojoin_channels s)
    (_reconnect_attempts s) (trace s) (tasks s).

Definition set_encoding (v : option string) (s : Client) : Client :=
  mkClient (channels s) (users s) (_receive_buffer s) (_handler_top_level s)
    (nickname s) (network s) (connection s) v (_autojoin_channels s)
    (_reconnect_attempts s) (trace s) (tasks s).

Definition set_autojoin_channels (v : list string) (s : Client) : Client :=
  mkClient (channels s) (users s) (_receive_buffer s) (_handler_top_level s)
    (nickname s) (network s) (connection s) (encoding s) v
    (_reconnect_attempts s) (trace s) (tasks s).

Definition set_reconnect_attempts (v : Z) (s : Client) : Client :=
  mkClient (channels s) (users s) (_receive_buffer s) (_handler_top_level s)
    (nickname s) (network s) (connection s) (encoding s) (_autojoin_channels s)
    v (trace s) (tasks s).

Definition emit (e : Event) (s : Client) : Client :=
  mkClient (channels s) (users s) (_receive_buffer s) (_handler_top_level s)
    (nickname s) (network s) (connection s) (encoding s) (_autojoin_channels s)
    (_reconnect_attempts s) (trace s ++ [e]) (tasks s).

Definition spawn (t : Task) (s : Client) : Client :=
  mkClient (channels s) (users s) (_receive_buffer s) (_handler_top_level s)
    (nickname s) (network s) (connection s) (encoding s) (_autojoin_channels s)
    (_reconnect_attempts s) (trace s) (tasks s ++ [t]).

(** ** Computations on the client

    A method either returns, raises (the mutations made before the raise
    stay), or exhausts the unrolling budget of a loop of the model. *)
Inductive outcome (A : Type) : Type :=
| Return (a : A)
| Raise (e : exn)
| OutOfFuel.
Arguments Return {A} a.
Arguments Raise {A} e.
Arguments OutOfFuel {A}.

Definition M (A : Type) : Type := Client -> outcome A * Client.

Definition ret {A} (a : A) : M A := fun s => (Return a, s).

Definition raise {A} (e : exn) : M A := fun s => (Raise e, s).

Definition bind {A B} (m : M A) (k : A -> M B) : M B :=
  fun s =>
    match m s with
    | (Return a, s') => k a s'
    | (Raise e, s') => (Raise e, s')
    | (OutOfFuel, s') => (OutOfFuel, s')
    end.

Definition gets {A} (f : Client -> A) : M A := fun s => (Return (f s), s).

Definition modify (f : Client -> Client) : M unit := fun s => (Return tt, f s).

(** [try: body except: handler] with a bare [except], which catches every
    exception. *)
Definition try_except {A} (body : M A) (handler : exn -> M A) : M A :=
  fun s =>
    match body s with
    | (Raise e, s') => handler e s'
    | r => r
    end.

(** [await e] where [e] is a call of a plain [def] that returns [None]: the
    call runs, then awaiting its result raises. *)
Definition await_none (call : M unit) : M unit :=
  bind call (fun _ =>
    raise (TypeError "object NoneType can't be used in 'await' expression")).

Declare Scope py_scope.
Delimit Scope py_scope with py.
Notation "x <- m ;; k" := (bind m (fun x => k))
  (at level 100, m at next level, right associativity) : py_scope.
Notation "m ;; k" := (bind m (fun _ => k))
  (at level 100, right associativity) : py_scope.
Open Scope py_scope.

Definition when (b : bool) (m : M unit) : M unit := if b then m else ret tt.

(** Truth value of a [str]-or-[None] and of an [int]-or-[None]. *)
Definition truthy_str (o : option string) : bool :=
  match o with
  | Some s => negb (String.eqb s "")
  | None => false
  end.

Definition truthy_int (o : option Z) : bool :=
  match o with
  | Some n => negb (n =? 0)
  | None => false
  end.

(** [c in s] for a one-character [c]. *)
Fixpoint contains_char (c : ascii) (s : string) : bool :=
  match s with
  | EmptyString => false
  | String a rest => Ascii.eqb a c || contains_char c rest
  end.

(** [l[i]] with Python's negative indices. *)
Definition py_index {A} (l : list A) (i : Z) : M A :=
  let n := Z.of_nat (length l) in
  let j := if i <? 0 then i + n else i in
  if (j <? 0) || (n <=? j) then raise IndexError
  else match l !! Z.to_nat j with
       | Some x => ret x
       | None => raise IndexError
       end.

(** ** Internal database management *)

(** [self.channels[channel]] *)
Definition channel_item (channel : string) : M Channel :=
  chs <- gets channels;;
  match chs !! channel with
  | Some ch => ret ch
  | None => raise (KeyError channel)
  end.

(** [del self.channels[channel]] *)
Definition del_channel (channel : string) : M unit :=
  chs <- gets channels;;
  match chs !! channel with
  | Some _ => modify (set_channels (delete channel chs))
  | None => raise (KeyError channel)
  end.

(** [del self.users[nickname]] *)
Definition del_user (nickname : string) : M unit :=
  us <- gets users;;
  match us !! nickname with
  | Some _ => modify (set_users (delete nickname us))
  | None => raise (KeyError nickname)
  end.

(** [ch['users'].discard(nickname)] *)
Definition discard (nickname : string) (ch : Channel) : Channel :=
  mkChannel (ch_users ch ∖ {[nickname]}).

(** [any(nickname in ch['users'] for ch in self.channels.values())] *)
Definition in_any_channel (nickname : string) (chs : gmap string Channel) : bool :=
  bool_decide (map_Exists (λ _ ch, nickname ∈ ch_users ch) chs).

(** [for x in xs: body(x)] *)
Fixpoint for_each {A} (xs : list A) (body : A -> M unit) : M unit :=
  match xs with
  | [] => ret tt
  | x :: rest => body x;; for_each rest body
  end.

Definition _create_channel (channel : string) : M unit :=
  modify (fun s => set_channels (<[channel := mkChannel ∅]> (channels s)) s).

Definition _destroy_user (nickname : string) (channel : option string) : M unit :=
  (if truthy_str channel then
     let name := default "" channel in
     ch <- channel_item name;;
     modify (fun s => set_channels (<[name := discard nickname ch]> (channels s)) s)
   else
     modify (fun s => set_channels (discard nickname <$> channels s) s));;
  chs <- gets channels;;
  if negb (truthy_str channel) || negb (in_any_channel nickname chs)
  then del_user nickname
  else ret tt.

(** The loop runs over a copy of the membership set; [elements] fixes one
    iteration order of that copy. *)
Definition _destroy_channel (channel : string) : M unit :=
  ch <- channel_item channel;;
  for_each (elements (ch_users ch))
    (fun user => _destroy_user user (Some channel));;
  del_channel channel.

Definition _create_user (nickname : string) : M unit :=
  if String.eqb nickname "" || contains_char "." nickname then ret tt
  else
    modify (fun s =>
      set_users (<[nickname := mkUser nickname None None None]> (users s)) s).

(** [ch['users'].discard(user); ch['users'].add(new)] when [user] is a
    member. *)
Definition rename_member (user new : string) (ch : Channel) : Channel :=
  if bool_decide (user ∈ ch_users ch)
  then mkChannel ((ch_users ch ∖ {[user]}) ∪ {[new]})
  else ch.

(** [_create_user] is a plain [def], so the [await] in the [else] branch
    raises once the call has run.  [go_on] is false when the early
    [return] is taken. *)
Definition _rename_user (user new : string) : M unit :=
  us <- gets users;;
  go_on <-
    match us !! user with
    | Some record =>
        modify (set_users
          (delete user
             (<[new := mkUser new (user_username record) (user_realname record)
                         (user_hostname record)]> us)));;
        ret true
    | None =>
        await_none (_create_user new);;
        us' <- gets users;;
        ret (bool_decide (is_Some (us' !! new)))
    end;;
  when go_on
    (modify (fun s => set_channels (rename_member user new <$> channels s) s)).

(** The attributes a fresh client starts with ([__init__] runs both
    resets). *)
Definition fresh_client : Client :=
  mkClient ∅ ∅ "" false DEFAULT_NICKNAME None None None [] 0 [] [].

Definition room (members : list string) : Channel :=
  mkChannel (list_to_set members).

(** Unfold the monad's plumbing and reduce what that exposes. *)
Ltac run :=
  cbv beta iota zeta delta
    [bind gets modify ret raise when try_except await_none fst snd default
     from_option id negb orb andb];
  cbn [channels users _receive_buffer _handler_top_level nickname network
       connection encoding _autojoin_channels _reconnect_attempts trace tasks
       set_channels set_users set_receive_buffer set_handler_top_level
       set_nickname set_network set_connection set_encoding
       set_autojoin_channels set_reconnect_attempts emit spawn].

(** [nickname] is a member of some channel other than [name]. *)
Definition in_other_channel (nickname name : string)
    (chs : gmap string Channel) : bool :=
  in_any_channel nickname (delete name chs).

(** A server name sits in the membership set of [#a]; [_create_user]
    never gave it a record. *)
Definition server_in_channel : Client :=
  snd (_create_user "irc.example.net"
         (set_channels {["#a" := room ["irc.example.net"]]} fresh_client)).

(** [bob] is only in [#a]; [al] is in [#a] and [#b]. *)
Definition two_rooms : Client :=
  set_users {["bob" := mkUser "bob" None None None;
              "al" := mkUser "al" (Some "alice") None (Some "example.org")]}
    (set_channels {["#a" := room ["bob"; "al"]; "#b" := room ["al"]]}
       fresh_client).

(** A nickname [_create_user] accepts: not empty and without a dot. *)
Definition is_user_name (nickname : string) : bool :=
  negb (String.eqb nickname "" || contains_char "." nickname).

(** ** Connection life cycle *)

(** The class attributes of [BasicClient] that subclasses may override;
    [RECONNECT_MAX_ATTEMPTS = None] means no bound. *)
Record Config : Type := mkConfig {
  READ_TIMEOUT : Z;
  RECONNECT_ON_ERROR : bool;
  RECONNECT_MAX_ATTEMPTS : option Z;
  RECONNECT_DELAYED : bool;
  RECONNECT_DELAYS : list Z
}.

Definition BasicClient_config : Config :=
  mkConfig 300 true (Some 3) true [5; 5; 10; 30; 120; 600].

(** Modelled from the spec: what lies behind [from . import connection,
    protocol].  The transport's [connect] and [disconnect] either give the
    connection in its new state or fail with an error of the given name;
    [DEFAULT_ENCODING] is the codec's default. *)
Class Transport : Type := {
  DEFAULT_ENCODING : string;
  Connection_connect : Connection -> string + Connection;
  Connection_disconnect : Connection -> string + Connection
}.

(** The transport of the test suite ([MockConnection] in [tests/mocks.py]):
    connecting and disconnecting only flips the flag. *)
Definition MockTransport : Transport := {|
  DEFAULT_ENCODING := "utf-8";
  Connection_connect c :=
    inr (mkConnection (conn_hostname c) (conn_port c) (conn_source_address c) true);
  Connection_disconnect c :=
    inr (mkConnection (conn_hostname c) (conn_port c) (conn_source_address c) false)
|}.

(** Keyword arguments [connect] hands on to [_connect]. *)
Record Kwargs : Type := mkKwargs {
  kw_channels : option (list string);
  kw_encoding : option string;
  kw_source_address : option string
}.

Definition no_kwargs `{Transport} : Kwargs :=
  mkKwargs None (Some DEFAULT_ENCODING) None.

Definition _reset_attributes : M unit :=
  modify (fun s =>
    mkClient ∅ ∅ "" false DEFAULT_NICKNAME None
      (connection s) (encoding s) (_autojoin_channels s)
      (_reconnect_attempts s) (trace s) (tasks s)).

Definition _reset_connection_attributes : M unit :=
  modify (fun s =>
    mkClient (channels s) (users s) (_receive_buffer s) (_handler_top_level s)
      (nickname s) (network s)
      None None [] 0 (trace s) (tasks s)).

(** The [connected] property: [self.connection and self.connection.connected]. *)
Definition connected (s : Client) : bool :=
  match connection s with
  | Some c => conn_connected c
  | None => false
  end.

(** [await self.connection.op()] for a transport operation [op]. *)
Definition on_connection (op : Connection -> string + Connection) : M unit :=
  c <- gets connection;;
  match c with
  | None => raise (AttributeError "'NoneType' object has no such attribute")
  | Some c =>
      match op c with
      | inl name => raise (OtherError name)
      | inr c' => modify (set_connection (Some c'))
      end
  end.

Definition _reconnect_delay (cfg : Config) : M Z :=
  if RECONNECT_ON_ERROR cfg && RECONNECT_DELAYED cfg then
    n <- gets _reconnect_attempts;;
    if Z.of_nat (length (RECONNECT_DELAYS cfg)) <=? n
    then py_index (RECONNECT_DELAYS cfg) (-1)
    else py_index (RECONNECT_DELAYS cfg) n
  else ret 0.

Definition on_connect : M unit :=
  modify (set_reconnect_attempts 0).

Section Lifecycle.
Context `{Transport}.

(** [self.on_disconnect], an overloadable callback, bound late. *)
Variable self_on_disconnect : bool -> M unit.

Definition _disconnect (expected : bool) : M unit :=
  on_connection Connection_disconnect;;
  _reset_attributes;;
  self_on_disconnect expected.

Definition disconnect (expected : bool) : M unit :=
  c <- gets connected;;
  when c (_disconnect expected).

Definition _connect (hostname : option string) (port : option Z)
    (reconnect : bool) (kw : Kwargs) : M unit :=
  c <- gets connection;;
  when (negb reconnect || negb (bool_decide (is_Some c)))
    (modify (fun s =>
       set_encoding (kw_encoding kw)
         (set_connection
            (Some (mkConnection hostname port (kw_source_address kw) false))
            (set_autojoin_channels (default [] (kw_channels kw)) s))));;
  on_connection Connection_connect.

(** The logger is renamed after [server_tag] at this point in the source;
    the name of the logger is not part of the model. *)
Definition connect (hostname : option string) (port : option Z)
    (reconnect : bool) (kw : Kwargs) : M unit :=
  if (negb (truthy_str hostname) || negb (truthy_int port)) && negb reconnect
  then raise (ValueError "Have to specify hostname and port if not reconnecting.")
  else
    c <- gets connected;;
    when c (disconnect true);;
    when (negb reconnect) _reset_connection_attributes;;
    _connect hostname port reconnect kw;;
    modify (spawn Task_handle_forever).
End Lifecycle.

(** [on_disconnect] calls [connect], which calls back into [on_disconnect]
    through [disconnect]; [fuel] bounds that nesting. *)
Fixpoint on_disconnect `{Transport} (cfg : Config) (fuel : nat)
    (expected : bool) : M unit :=
  if negb expected then
    n <- gets _reconnect_attempts;;
    if RECONNECT_ON_ERROR cfg
       && match RECONNECT_MAX_ATTEMPTS cfg with
          | None => true
          | Some limit => n <? limit
          end
    then
      delay <- _reconnect_delay cfg;;
      modify (fun s => set_reconnect_attempts (_reconnect_attempts s + 1) s);;
      (if 0 <? delay
       then modify (emit (Log ERROR
              "Unexpected disconnect. Attempting to reconnect within %s seconds."
              [PyInt delay]))
       else modify (emit (Log ERROR
              "Unexpected disconnect. Attempting to reconnect." [])));;
      modify (emit (Slept delay));;
      match fuel with
      | O => fun s => (OutOfFuel, s)
      | S fuel' => connect (on_disconnect cfg fuel') None None true no_kwargs
      end
    else
      modify (emit (Log ERROR "Unexpected disconnect. Giving up." []))
  else ret tt.

(** The test [connect] opens with. *)
Definition arguments_missing (hostname : option string) (port : option Z)
    (reconnect : bool) : bool :=
  (negb (truthy_str hostname) || negb (truthy_int port)) && negb reconnect.

(** Computations that neither raise [ValueError] nor exhaust the fuel of
    the model; closed under sequencing. *)
Definition tame {A} (m : M A) : Prop :=
  forall s, fst (m s) <> OutOfFuel
            /\ forall msg, fst (m s) <> Raise (ValueError msg).

(** Computations that maintain a property [P] of the client, whether they
    return or raise; closed under sequencing. *)
Definition preserves {B} (P : Client -> Prop) (m : M B) : Prop :=
  forall s, P s -> P (snd (m s)).

(** A client whose transport has gone down by itself while channel state
    and unparsed bytes are still around: [handle_forever] leaves its loop
    without a reset when it gets no data and [connected] is already
    false. *)
Definition stale_client : Client :=
  set_connection
    (Some (mkConnection (Some "irc.example.net") (Some 6667) None false))
    (set_receive_buffer "PRIVMSG #a :hel"
       (set_users {["bob" := mkUser "bob" None None None]}
          (set_channels {["#a" := room ["bob"]]} fresh_client))).

(** A client that is connected, over the transport of the test suite. *)
Definition online_client : Client :=
  set_connection
    (Some (mkConnection (Some "irc.example.net") (Some 6667) None true))
    stale_client.

(** The client as [on_disconnect] leaves it for [connect(reconnect=True)]:
    counter incremented, the error logged, the delay slept. *)
Definition after_backoff (delay : Z) (s : Client) : Client :=
  emit (Slept delay)
    (emit (if 0 <? delay
           then Log ERROR
                  "Unexpected disconnect. Attempting to reconnect within %s seconds."
                  [PyInt delay]
           else Log ERROR "Unexpected disconnect. Attempting to reconnect." [])
       (set_reconnect_attempts (_reconnect_attempts s + 1) s)).

(** Computations that leave an observation [f] of the client as it was,
    whether they return or raise; closed under sequencing. *)
Definition keeps {A B} (f : Client -> A) (m : M B) : Prop :=
  forall s, f (snd (m s)) = f s.

(** One unexpected disconnect, seen as a step on the client. *)
Definition unexpected_disconnect `{Transport} (cfg : Config) (fuel : nat)
    (s : Client) : Client :=
  snd (on_disconnect cfg (S fuel) false s).

(** ** Message dispatch *)

(** [str.lower] on ASCII text. *)
Definition lower_char (c : ascii) : ascii :=
  let n := nat_of_ascii c in
  if (65 <=? n)%nat && (n <=? 90)%nat then ascii_of_nat (n + 32) else c.

Fixpoint lower (s : string) : string :=
  match s with
  | EmptyString => EmptyString
  | String c rest => String (lower_char c) (lower rest)
  end.

Fixpoint is_ascii (s : string) : bool :=
  match s with
  | EmptyString => true
  | String c rest => (nat_of_ascii c <? 128)%nat && is_ascii rest
  end.

(** [str.lower] itself.  Python lower-cases by the Unicode character
    database, which is no part of this development: the method is a
    parameter of the dispatch, and what is known of it is what it does to
    text within ASCII, where only the letters A to Z change. *)
Class Text : Type := {
  str_lower : string -> string;
  str_lower_ascii : forall s, is_ascii s = true -> str_lower s = lower s
}.

(** Text all of whose cased letters are within ASCII, for the examples. *)
Definition AsciiText : Text := {|
  str_lower := lower;
  str_lower_ascii := fun _ _ => eq_refl
|}.

Fixpoint zeros (n : nat) : string :=
  match n with
  | O => EmptyString
  | S n' => String "0" (zeros n')
  end.

(** [str.zfill]: pad with zeros on the left, after a leading sign. *)
Definition zfill (width : nat) (s : string) : string :=
  let pad := zeros (width - String.length s) in
  match s with
  | String c rest =>
      if Ascii.eqb c "+" || Ascii.eqb c "-"
      then String c (pad +:+ rest)
      else pad +:+ s
  | EmptyString => pad
  end.

(** What [getattr] yields for a handler name: a coroutine function taking
    the message. *)
Definition Handler : Type := Message -> M unit.

Definition command_value (message : Message) : PyVal :=
  match command message with
  | inl n => PyInt n
  | inr c => PyStr c
  end.

Definition on_unknown : Handler :=
  fun message =>
    modify (emit (Log WARNING "Unknown command: [%s] %s %s"
                    [from_option PyStr PyNone (source message);
                     command_value message;
                     PyList (params message)])).

Definition _ignored : Handler := fun _ => ret tt.

(** The name of the handler [on_raw] looks up. *)
Definition handler_name `{Text} (message : Message) : string :=
  let cmd := match command message with
             | inl n => zfill 3 (pretty n)
             | inr c => c
             end in
  "on_raw_" +:+ str_lower cmd.

(** The message handlers [BasicClient] defines itself, by name. *)
Definition BasicClient_handlers (attr : string) : option Handler :=
  if String.eqb attr "on_unknown" then Some on_unknown
  else if String.eqb attr "_ignored" then Some _ignored
  else None.

(** Modelled from the spec: the message codec.  [_has_message] and
    [_parse_message] raise [NotImplementedError] in [BasicClient] and are
    overloaded by the protocol layer; they decide on, and consume from, the
    receive buffer only. *)
Class Codec : Type := {
  has_complete_message : string -> bool;
  extract_message : string -> exn + (Message * string)
}.

Section Dispatch.
Context `{Text}.
(** The handlers on top of those of [BasicClient]: the methods subclasses
    define and the functions bound to the object with [event]. *)
Variable defined : string -> option Handler.

(** Ordinary attribute lookup of a handler: the object and its subclasses
    first, [BasicClient] last. *)
Definition lookup (attr : string) : option Handler :=
  match defined attr with
  | Some handler => Some handler
  | None => BasicClient_handlers attr
  end.

(** [self.on_unknown] and [self._ignored]: looked up on the object each
    time, so a method of a subclass or a function bound with [event] under
    that name takes the place of the method of [BasicClient]. *)
Definition self_on_unknown : Handler :=
  from_option id on_unknown (defined "on_unknown").

Definition self__ignored : Handler :=
  from_option id _ignored (defined "_ignored").

Definition __getattr__ (attr : string) : M Handler :=
  if String.prefix "on_raw_" attr then
    top_level <- gets _handler_top_level;;
    if top_level then ret self_on_unknown else ret self__ignored
  else raise (AttributeError attr).

(** [getattr(self, attr)]: [__getattr__] is only asked when the ordinary
    lookup fails. *)
Definition getattr (attr : string) : M Handler :=
  match lookup attr with
  | Some handler => ret handler
  | None => __getattr__ attr
  end.

Definition on_raw (message : Message) : M unit :=
  modify (emit (Log DEBUG "<< %s" [PyStr (_raw message)]));;
  when (negb (_valid message))
    (modify (emit (Log WARNING
       "Encountered strictly invalid IRC message from server: %s"
       [PyStr (_raw message)])));;
  let method := handler_name message in
  try_except
    (modify (set_handler_top_level true);;
     handler <- getattr method;;
     modify (set_handler_top_level false);;
     handler message)
    (fun _ =>
       modify (emit (Log EXCEPTION "Failed to execute %s handler."
                       [PyStr method]))).

(** The event loop running, in creation order, the [on_raw] tasks that
    [on_data] created. *)
Definition run_on_raw_tasks (messages : list Message) : M unit :=
  for_each messages on_raw.
End Dispatch.

Section Receive.
Context `{Codec}.

Definition _has_message : M bool :=
  gets (fun s => has_complete_message (_receive_buffer s)).

Definition _parse_message : M Message :=
  buffer <- gets _receive_buffer;;
  match extract_message buffer with
  | inl e => raise e
  | inr (message, rest) => modify (set_receive_buffer rest);; ret message
  end.

(** [while self._has_message(): ...], unrolled at most [fuel] times. *)
Fixpoint drain (fuel : nat) : M unit :=
  more <- _has_message;;
  if more then
    match fuel with
    | O => fun s => (OutOfFuel, s)
    | S fuel' =>
        message <- _parse_message;;
        modify (spawn (Task_on_raw message));;
        drain fuel'
    end
  else ret tt.

Definition on_data (fuel : nat) (data : string) : M unit :=
  modify (fun s => set_receive_buffer (_receive_buffer s +:+ data) s);;
  drain fuel.
End Receive.

(** ** Notions used in the statements *)

(** The client as [on_raw] hands it to the handler: the message logged and
    the top-level flag set for the lookup and cleared again. *)
Definition entering_handler (message : Message) (s : Client) : Client :=
  let logged := emit (Log DEBUG "<< %s" [PyStr (_raw message)]) s in
  let warned :=
    if _valid message then logged
    else emit (Log WARNING
                 "Encountered strictly invalid IRC message from server: %s"
                 [PyStr (_raw message)]) logged in
  set_handler_top_level false (set_handler_top_level true warned).

(** The handler [on_raw] ends up calling: the one defined under the name
    of the message, or else the [on_unknown] of the object. *)
Definition resolve `{Text} (defined : string -> option Handler)
    (message : Message) : Handler :=
  from_option id (self_on_unknown defined) (defined (handler_name message)).

Definition failure_logged `{Text} (message : Message) (s : Client) : Client :=
  emit (Log EXCEPTION "Failed to execute %s handler."
          [PyStr (handler_name message)]) s.

(** A subclass whose [PRIVMSG] handler always fails. *)
Definition failing_privmsg : string -> option Handler :=
  fun name =>
    if String.eqb name "on_raw_privmsg"
    then Some (fun _ => raise (OtherError "RuntimeError"))
    else None.

(** A subclass that keeps quiet about unknown commands: its [on_unknown]
    logs nothing. *)
Definition quiet_unknown : string -> option Handler :=
  fun name =>
    if String.eqb name "on_unknown" then Some (fun _ => ret tt) else None.

(** A codec for the examples: a message is a line ending in a line feed,
    and the line's text is its command. *)
Fixpoint split_line (buffer : string) : option (string * string) :=
  match buffer with
  | EmptyString => None
  | String c rest =>
      if Ascii.eqb c "010" then Some (EmptyString, rest)
      else match split_line rest with
           | Some (line, remainder) => Some (String c line, remainder)
           | None => None
           end
  end.

Definition LineCodec : Codec := {|
  has_complete_message buffer := bool_decide (is_Some (split_line buffer));
  extract_message buffer :=
    match split_line buffer with
    | Some (line, remainder) =>
        inr (mkMessage (inr line) [] None line true, remainder)
    | None => inl (OtherError "ProtocolViolation")
    end
|}.

Definition privmsg : Message := mkMessage (inr "PRIVMSG") [] None "PRIVMSG" true.

Definition ping : Message := mkMessage (inr "PING") [] None "PING" true.

(** ** The rest of the entity store *)

(** [channel in self.channels.keys()] *)
Definition in_channel (channel : string) : M bool :=
  chs <- gets channels;;
  ret (bool_decide (is_Some (chs !! channel))).

(** The metadata handed to [_sync_user], for the keys a user record has: a
    key is either absent or present with its value. *)
Record Metadata : Type := mkMetadata {
  md_nickname : option string;
  md_username : option (option string);
  md_realname : option (option string);
  md_hostname : option (option string)
}.

(** [record.update(metadata)] *)
Definition update_user (metadata : Metadata) (record : User) : User :=
  mkUser (default (user_nickname record) (md_nickname metadata))
         (default (user_username record) (md_username metadata))
         (default (user_realname record) (md_realname metadata))
         (default (user_hostname record) (md_hostname metadata)).

(** As in [_rename_user], the [await] of the plain [_create_user] raises
    once the call has run; [go_on] is false when the early [return] is
    taken. *)
Definition _sync_user (nick : string) (metadata : Metadata) : M unit :=
  us <- gets users;;
  go_on <-
    (if bool_decide (is_Some (us !! nick)) then ret true
     else
       await_none (_create_user nick);;
       us' <- gets users;;
       ret (bool_decide (is_Some (us' !! nick))));;
  when go_on
    (us <- gets users;;
     match us !! nick with
     | Some record =>
         modify (set_users (<[nick := update_user metadata record]> us))
     | None => raise (KeyError nick)
     end).

(** [value or '*'] *)
Definition or_star (value : option string) : string :=
  if truthy_str value then default "" value else "*".

Definition _format_host_mask (nick user host : string) : string :=
  nick +:+ "!" +:+ user +:+ "@" +:+ host.

Definition _format_user_mask (nickname : string) : M string :=
  us <- gets users;;
  let user := default (mkUser nickname (Some "*") None (Some "*"))
                (us !! nickname) in
  ret (_format_host_mask (user_nickname user) (or_star (user_username user))
         (or_star (user_hostname user))).

(** Every member of every channel has a user record. *)
Definition members_recorded (s : Client) : Prop :=
  forall c ch u,
    channels s !! c = Some ch -> u ∈ ch_users ch -> is_Some (users s !! u).

(** Every user record belongs to a member of some channel. *)
Definition records_are_members (s : Client) : Prop :=
  forall u, is_Some (users s !! u) ->
            exists c ch, channels s !! c = Some ch /\ u ∈ ch_users ch.

(** A user record exists exactly for the nicknames that are in some
    channel. *)
Definition store_consistent (s : Client) : Prop :=
  members_recorded s /\ records_are_members s.


(** ** Reading a numeric handler name back *)

Definition digit_value (c : ascii) : Z := Z.of_nat (nat_of_ascii c) - 48.

Fixpoint decimal_value (acc : Z) (s : string) : Z :=
  match s with
  | EmptyString => acc
  | String c rest => decimal_value (10 * acc + digit_value c) rest
  end.

(** The number written in the three characters after [on_raw_]. *)
Definition numeric_of_handler_name (name : string) : Z :=
  decimal_value 0 (String.substring 7 3 name).

(** ** Registering handlers *)

(** A Python function as [event] sees it: its [__name__], whether it is an
    [async def], and what it does when called with the client bound. *)
Record PyFunction : Type := mkPyFunction {
  fn_name : string;
  fn_is_coroutine : bool;
  fn_call : Handler
}.

Inductive RegistrationError : Type :=
| NameError (msg : string)
| AssertionError (function : string).

(** [setattr(self, name, handler)] on the table of ordinary attributes. *)
Definition setattr (defined : string -> option Handler) (name : string)
    (handler : Handler) : string -> option Handler :=
  fun attr => if String.eqb attr name then Some handler else defined attr.

(** [event] either refuses the function or binds it to the client under
    its own name; the attribute table is the client's state it changes. *)
Definition event (defined : string -> option Handler) (func : PyFunction)
    : RegistrationError + (string -> option Handler) :=
  if negb (String.prefix "on_" (fn_name func))
  then inl (NameError "Event handlers must start with 'on_'.")
  else if negb (fn_is_coroutine func)
  then inl (AssertionError (fn_name func))
  else inr (setattr defined (fn_name func) (fn_call func)).

(** ** The read loop *)

(** What [await self.connection.recv(timeout=...)] can give: bytes, or an
    exception. *)
Inductive Recv : Type :=
| RecvData (data : string)
| RecvRaise (e : exn).

Definition TimeoutError : exn := OtherError "TimeoutError".

Definition ConnectionResetError : exn := OtherError "ConnectionResetError".

(** [except asyncio.TimeoutError] *)
Definition is_timeout (e : exn) : bool :=
  match e with
  | OtherError name => String.eqb name "TimeoutError"
  | _ => false
  end.

(** [except (asyncio.TimeoutError, ConnectionResetError)] *)
Definition is_timeout_or_reset (e : exn) : bool :=
  match e with
  | OtherError name =>
      String.eqb name "TimeoutError" || String.eqb name "ConnectionResetError"
  | _ => false
  end.

Section ReadLoop.
Context `{Transport} `{Codec}.

(** [self.on_disconnect], bound late as in [disconnect]. *)
Variable self_on_disconnect : bool -> M unit.

(** [await self.rawmsg("PING", self.server_tag)]: [rawmsg] goes through
    the codec's [_create_message] and the transport's [send], which the
    protocol layer provides. *)
Variable send_ping : M unit.

(** The unrolling budget handed to each [on_data]. *)
Variable data_fuel : nat.

Definition on_data_error (exception : exn) : M unit :=
  modify (emit (Log ERROR "Encountered error on socket." []));;
  disconnect self_on_disconnect false.

(** The end of one round of the loop, with the bytes read ([None] stands
    for [data = None]): [true] asks for another round. *)
Definition handle_data (data : option string) : M bool :=
  if negb (truthy_str data) then
    c <- gets connected;;
    when c (disconnect self_on_disconnect false);;
    ret false
  else
    on_data data_fuel (default "" data);;
    ret true.

(** [handle_forever], reading the answers of [recv] off a script; the loop
    stops with [OutOfFuel] when it wants to read past the script's end. *)
Fixpoint handle_forever (script : list Recv) : M unit :=
  c <- gets connected;;
  if c then
    match script with
    | [] => fun s => (OutOfFuel, s)
    | RecvData data :: rest =>
        again <- handle_data (Some data);;
        if again then handle_forever rest else ret tt
    | RecvRaise e :: rest =>
        if is_timeout e then
          modify (emit (Log WARNING
            ">> Receive timeout reached, sending ping to check connection state..."
            []));;
          fun s =>
            match send_ping s with
            | (Return _, s1) =>
                match rest with
                | [] => (OutOfFuel, s1)
                | RecvData data :: rest' =>
                    (again <- handle_data (Some data);;
                     if again then handle_forever rest' else ret tt) s1
                | RecvRaise e' :: rest' =>
                    if is_timeout_or_reset e'
                    then (again <- handle_data None;;
                          if again then handle_forever rest' else ret tt) s1
                    else (Raise e', s1)
                end
            | (Raise e', s1) =>
                if is_timeout_or_reset e'
                then (again <- handle_data None;;
                      if again then handle_forever rest else ret tt) s1
                else (Raise e', s1)
            | (OutOfFuel, s1) => (OutOfFuel, s1)
            end
        else raise e
    end
  else ret tt.
End ReadLoop.

(** The warning the read loop logs on a read timeout. *)
Definition timeout_warning : Event :=
  Log WARNING
    ">> Receive timeout reached, sending ping to check connection state..." [].

(** ** The framing of the test suite ([tests/mocks.py]) *)

Definition CRLF : string := String "013" (String "010" EmptyString).

(** [b'\r\n' in buffer] *)
Fixpoint contains_crlf (buffer : string) : bool :=
  match buffer with
  | EmptyString => false
  | String c rest =>
      String.prefix CRLF buffer || contains_crlf rest
  end.

(** [buffer.partition(b'\r\n')] without the separator in the middle: the
    part before the first separator and the part after it; the whole
    buffer and nothing when there is no separator. *)
Fixpoint partition_crlf (buffer : string) : string * string :=
  match buffer with
  | EmptyString => (EmptyString, EmptyString)
  | String c rest =>
      if String.prefix CRLF buffer
      then (EmptyString, String.substring 2 (String.length buffer - 2) buffer)
      else let (message, data) := partition_crlf rest in
           (String c message, data)
  end.

Definition mock_has_message : M bool :=
  gets (fun s => contains_crlf (_receive_buffer s)).

(** [parse] stands for [MockMessage.parse], which decodes JSON. *)
Definition mock_parse_message (parse : string -> exn + Message) : M Message :=
  buffer <- gets _receive_buffer;;
  let (message, data) := partition_crlf buffer in
  modify (set_receive_buffer data);;
  match parse (message +:+ CRLF) with
  | inl e => raise e
  | inr parsed => ret parsed
  end.

(** ** The client pool *)

Module ClientPool.

(** Pooled clients are told apart by a name; the arguments kept for each
    are those of its [connect]. *)
Record Args : Type := mkArgs {
  arg_hostname : option string;
  arg_port : option Z;
  arg_reconnect : bool
}.

Record Pool : Type := mkPool {
  clients : gset string;
  connect_args : gmap string Args
}.

(** [ClientPool(clients)] *)
Definition __init__ (initial : list string) : Pool :=
  mkPool (list_to_set initial) ∅.

(** [pool.connect(client, *args, **kwargs)] *)
Definition connect (client : string) (args : Args) (p : Pool) : Pool :=
  mkPool ({[client]} ∪ clients p) (<[client := args]> (connect_args p)).

(** [pool.disconnect(client)]: [set.remove] and [del] raise [KeyError] for
    a missing client; [asyncio.run_coroutine_threadsafe] is called without
    its [loop] argument, which is a [TypeError], after the coroutine object
    of [client.disconnect] was made but before anything could run it. *)
Definition disconnect (client : string) (p : Pool) : outcome unit * Pool :=
  if bool_decide (client ∈ clients p) then
    let p1 := mkPool (clients p ∖ {[client]}) (connect_args p) in
    match connect_args p1 !! client with
    | Some _ =>
        (Raise (TypeError
           "run_coroutine_threadsafe() missing 1 required positional argument: 'loop'"),
         mkPool (clients p1) (delete client (connect_args p1)))
    | None => (Raise (KeyError client), p1)
    end
  else (Raise (KeyError client), p).

Definition __contains__ (item : string) (p : Pool) : bool :=
  bool_decide (item ∈ clients p).

End ClientPool.

(** The pool keeps connect arguments for exactly its clients. *)
Definition pool_consistent (p : ClientPool.Pool) : Prop :=
  dom (ClientPool.connect_args p) = ClientPool.clients p.

(** ** Properties of the entity store *)

Example destroy_user_example :
  let s := set_users {["bob" := mkUser "bob" None None None]}
             (set_channels {["#a" := room ["bob"]]} fresh_client) in
  fst (_destroy_user "bob" (Some "#a") s) = Return tt
  /\ users (snd (_destroy_user "bob" (Some "#a") s)) = ∅.
Proof. vm_compute. split; reflexivity. Qed.

Lemma channel_eq (a b : Channel) : ch_users a = ch_users b -> a = b.
Proof. destruct a, b; simpl; congruence. Qed.

Lemma channels_set_channels v s : channels (set_channels v s) = v.
Proof. reflexivity. Qed.

Lemma users_set_users v s : users (set_users v s) = v.
Proof. reflexivity. Qed.

Lemma set_channels_same s : set_channels (channels s) s = s.
Proof. destruct s; reflexivity. Qed.

(** C5, as the specification words it, fails: creating a channel that is
    already present with a member replaces its membership set by the empty
    one. *)
Lemma create_channel_present_counterexample :
  let s := set_channels {["#a" := room ["bob"]]} fresh_client in
  is_Some (channels s !! "#a")
  /\ channels (snd (_create_channel "#a" s)) <> channels s
  /\ ch_users <$> (channels (snd (_create_channel "#a" s)) !! "#a") = Some ∅
  /\ ch_users <$> (channels s !! "#a") = Some {["bob"]}.
Proof.
  simpl. split; [eexists; vm_compute; reflexivity|].
  split; [|split; vm_compute; reflexivity].
  intros H.
  apply (f_equal (fun m : gmap string Channel => ch_users <$> (m !! "#a"))) in H.
  vm_compute in H. discriminate H.
Qed.

(** C5 (amended): on a channel that is already present, [_create_channel]
    returns without error and a repeated call changes nothing more; every
    other channel keeps its entry and the users mapping is untouched; the
    membership set of the named channel is reset to empty, so the mapping
    is unchanged exactly when that set was empty before. *)
Theorem create_channel_present (s : Client) (name : string) (ch : Channel)
    (Hpresent : channels s !! name = Some ch) :
  let s' := snd (_create_channel name s) in
  _create_channel name s = (Return tt, s')
  /\ _create_channel name s' = (Return tt, s')
  /\ channels s' !! name = Some (mkChannel ∅)
  /\ (forall other, other <> name -> channels s' !! other = channels s !! other)
  /\ users s' = users s
  /\ (channels s' = channels s <-> ch_users ch = ∅).
Proof.
  unfold _create_channel, modify; simpl.
  repeat split.
  - rewrite insert_insert_eq. reflexivity.
  - apply lookup_insert_eq.
  - intros other Hne. apply lookup_insert_ne. congruence.
  - intros H.
    assert (E : <[name := mkChannel ∅]> (channels s) !! name = channels s !! name)
      by (rewrite H; reflexivity).
    rewrite lookup_insert_eq, Hpresent in E. injection E as E.
    rewrite <- E. reflexivity.
  - intros H. apply insert_id. rewrite Hpresent. f_equal.
    apply channel_eq. simpl. congruence.
Qed.

Lemma create_channel_present_witness :
  let s := set_channels {["#a" := room ["bob"]]} fresh_client in
  channels s !! "#a" = Some (room ["bob"])
  /\ channels (snd (_create_channel "#a" s)) !! "#a" = Some (mkChannel ∅).
Proof.
  simpl.
  assert (H : channels (set_channels {["#a" := room ["bob"]]} fresh_client) !! "#a"
              = Some (room ["bob"])) by (vm_compute; reflexivity).
  split; [exact H|].
  exact (proj1 (proj2 (proj2 (create_channel_present _ "#a" (room ["bob"]) H)))).
Defined.

Lemma in_any_channel_true nickname chs :
  in_any_channel nickname chs = true
  <-> exists c ch, chs !! c = Some ch /\ nickname ∈ ch_users ch.
Proof. unfold in_any_channel. rewrite bool_decide_eq_true. reflexivity. Qed.

Lemma in_other_channel_true nickname name chs :
  in_other_channel nickname name chs = true
  <-> exists c ch, c <> name /\ chs !! c = Some ch /\ nickname ∈ ch_users ch.
Proof.
  unfold in_other_channel. rewrite in_any_channel_true.
  split; intros (c & ch & H).
  - destruct H as [Hl Hin]. apply lookup_delete_Some in Hl as [Hne Hl].
    exists c, ch. auto.
  - destruct H as (Hne & Hl & Hin). exists c, ch. split; [|exact Hin].
    apply lookup_delete_Some. auto.
Qed.

(** Once [nickname] is discarded from channel [name], the [any(...)] test
    of [_destroy_user] only sees the other channels. *)
Lemma in_any_channel_pruned nickname name ch chs :
  in_any_channel nickname (<[name := discard nickname ch]> chs)
  = in_other_channel nickname name chs.
Proof.
  unfold in_other_channel, in_any_channel. apply bool_decide_ext.
  split; intros (c & x & Hl & Hin).
  - destruct (decide (c = name)) as [->|Hne].
    + rewrite lookup_insert_eq in Hl.
      assert (Hx : x = discard nickname ch) by congruence.
      rewrite Hx in Hin. simpl in Hin.
      apply elem_of_difference in Hin as [_ Hn].
      exfalso. apply Hn, elem_of_singleton. reflexivity.
    + rewrite lookup_insert_ne in Hl by congruence.
      exists c, x. split; [|exact Hin]. apply lookup_delete_Some. auto.
  - apply lookup_delete_Some in Hl as [Hne Hl].
    exists c, x. split; [|exact Hin]. rewrite lookup_insert_ne; congruence.
Qed.

Lemma truthy_str_Some name : name <> "" -> truthy_str (Some name) = true.
Proof.
  intros H. simpl. apply negb_true_iff. apply String.eqb_neq. exact H.
Qed.

(** What [_destroy_user(nickname, name)] does for a channel that exists. *)
Lemma destroy_user_in_channel s nickname name ch :
  name <> "" -> channels s !! name = Some ch ->
  _destroy_user nickname (Some name) s =
    let s1 := set_channels (<[name := discard nickname ch]> (channels s)) s in
    if in_other_channel nickname name (channels s) then (Return tt, s1)
    else match users s !! nickname with
         | Some _ => (Return tt, set_users (delete nickname (users s)) s1)
         | None => (Raise (KeyError nickname), s1)
         end.
Proof.
  intros Hname Hch. unfold _destroy_user.
  rewrite (truthy_str_Some name Hname).
  unfold channel_item, del_user. run. rewrite Hch. run.
  rewrite in_any_channel_pruned.
  destruct (in_other_channel nickname name (channels s)); run; [reflexivity|].
  destruct (users s !! nickname); reflexivity.
Qed.

(** What [_destroy_user(nickname)] does without a (truthy) channel. *)
Lemma destroy_user_everywhere s nickname channel :
  truthy_str channel = false ->
  _destroy_user nickname channel s =
    let s1 := set_channels (discard nickname <$> channels s) s in
    match users s !! nickname with
    | Some _ => (Return tt, set_users (delete nickname (users s)) s1)
    | None => (Raise (KeyError nickname), s1)
    end.
Proof.
  intros Hch. unfold _destroy_user. rewrite Hch.
  unfold del_user. run.
  destruct (users s !! nickname); reflexivity.
Qed.

(** C10: [_destroy_user] is not total.  For a nickname without a record in
    the users mapping, the call without a channel (or with the empty name,
    which counts as none) raises [KeyError] for the nickname at the closing
    [del], after the membership sets were pruned; so does the call for an
    existing channel when the nickname is left in no channel. *)
Theorem destroy_user_missing_record_raises (s : Client) (nickname : string)
    (Hmissing : users s !! nickname = None) :
  (forall channel,
     channel = None \/ channel = Some "" ->
     _destroy_user nickname channel s
     = (Raise (KeyError nickname),
        set_channels (discard nickname <$> channels s) s))
  /\ (forall name ch,
        name <> "" -> channels s !! name = Some ch ->
        in_any_channel nickname (<[name := discard nickname ch]> (channels s))
          = false ->
        _destroy_user nickname (Some name) s
          = (Raise (KeyError nickname),
             set_channels (<[name := discard nickname ch]> (channels s)) s)).
Proof.
  split.
  - intros channel Hchannel.
    rewrite destroy_user_everywhere by (destruct Hchannel as [-> | ->]; reflexivity).
    simpl. rewrite Hmissing. reflexivity.
  - intros name ch Hname Hch Hnone.
    rewrite (destroy_user_in_channel s nickname name ch Hname Hch). simpl.
    rewrite in_any_channel_pruned in Hnone. rewrite Hnone, Hmissing.
    reflexivity.
Qed.

Lemma destroy_user_missing_record_raises_witness :
  users server_in_channel !! "irc.example.net" = None
  /\ fst (_destroy_user "irc.example.net" None server_in_channel)
     = Raise (KeyError "irc.example.net")
  /\ fst (_destroy_user "irc.example.net" (Some "#a") server_in_channel)
     = Raise (KeyError "irc.example.net").
Proof.
  assert (H : users server_in_channel !! "irc.example.net" = None)
    by (vm_compute; reflexivity).
  split; [exact H|].
  destruct (destroy_user_missing_record_raises server_in_channel
              "irc.example.net" H) as [H1 H2].
  split.
  - rewrite (H1 None) by (left; reflexivity). reflexivity.
  - rewrite (H2 "#a" (room ["irc.example.net"])).
    + reflexivity.
    + discriminate.
    + vm_compute. reflexivity.
    + vm_compute. reflexivity.
Defined.

Lemma in_other_channel_insert nickname name ch chs :
  in_other_channel nickname name (<[name := ch]> chs)
  = in_other_channel nickname name chs.
Proof. unfold in_other_channel. rewrite delete_insert_eq. reflexivity. Qed.

(** The loop of [_destroy_channel] over any duplicate-free enumeration [l]
    of members: it completes when every enumerated nickname that is in no
    other channel has a record, empties [l] out of the membership set and
    deletes exactly the records of those nicknames. *)
Lemma destroy_members name (Hname : name <> "") :
  forall (l : list string) (t : Client) (R : gset string),
    channels t !! name = Some (mkChannel R) ->
    NoDup l ->
    (forall u, u ∈ l -> in_other_channel u name (channels t) = false ->
               is_Some (users t !! u)) ->
    exists t',
      for_each l (fun user => _destroy_user user (Some name)) t = (Return tt, t')
      /\ channels t' = <[name := mkChannel (R ∖ list_to_set l)]> (channels t)
      /\ (forall u, users t' !! u =
                    if decide (u ∈ l)
                    then if in_other_channel u name (channels t)
                         then users t !! u else None
                    else users t !! u).
Proof.
  induction l as [|u l IH]; intros t R Hch Hnd Hrec.
  - exists t. split; [reflexivity|]. split.
    + simpl. rewrite insert_id; [reflexivity|].
      rewrite Hch. f_equal. apply channel_eq. simpl. set_solver.
    + intros u. destruct (decide (u ∈ [])) as [Hin|_]; [|reflexivity].
      inversion Hin.
  - apply NoDup_cons in Hnd as [Hnotin Hnd].
    pose proof (destroy_user_in_channel t u name (mkChannel R) Hname Hch) as Hstep.
    cbv zeta in Hstep.
    set (t1 := set_channels (<[name := discard u (mkChannel R)]> (channels t)) t)
      in Hstep.
    assert (Hch1 : forall x, channels x = channels t1 ->
                             channels x !! name = Some (mkChannel (R ∖ {[u]}))).
    { intros x ->. unfold t1. simpl. apply lookup_insert_eq. }
    assert (Hother : forall x v, channels x = channels t1 ->
              in_other_channel v name (channels x)
              = in_other_channel v name (channels t)).
    { intros x v ->. unfold t1. simpl. apply in_other_channel_insert. }
    destruct (in_other_channel u name (channels t)) eqn:Hu.
    + (* [u] is elsewhere too: its record stays *)
      destruct (IH t1 (R ∖ {[u]})) as (t' & Hrun & Hchs & Hus).
      * apply Hch1. reflexivity.
      * exact Hnd.
      * intros v Hv Hvo. rewrite Hother in Hvo by reflexivity.
        apply (Hrec v); [right; exact Hv | exact Hvo].
      * exists t'. split; [|split].
        -- simpl. unfold bind at 1. rewrite Hstep. exact Hrun.
        -- rewrite Hchs. unfold t1. simpl. rewrite insert_insert_eq.
           do 2 f_equal. set_solver.
        -- intros v. rewrite Hus. rewrite Hother by reflexivity.
           change (users t1) with (users t).
           destruct (decide (v ∈ l)) as [Hvl|Hvl];
             destruct (decide (v ∈ u :: l)) as [Hvul|Hvul]; try reflexivity.
           ++ exfalso. apply Hvul. right. exact Hvl.
           ++ apply elem_of_cons in Hvul as [->|Hvl']; [|contradiction].
              rewrite Hu. reflexivity.
    + (* [u] is in no other channel: its record is deleted *)
      destruct (Hrec u) as [r Hr]; [left | exact Hu |].
      rewrite Hr in Hstep.
      set (t2 := set_users (delete u (users t)) t1) in Hstep.
      destruct (IH t2 (R ∖ {[u]})) as (t' & Hrun & Hchs & Hus).
      * apply Hch1. reflexivity.
      * exact Hnd.
      * intros v Hv Hvo. rewrite Hother in Hvo by reflexivity.
        unfold t2. simpl. rewrite lookup_delete_ne.
        -- apply (Hrec v); [right; exact Hv | exact Hvo].
        -- intros ->. contradiction.
      * exists t'. split; [|split].
        -- simpl. unfold bind at 1. rewrite Hstep. exact Hrun.
        -- rewrite Hchs. unfold t2, t1. simpl. rewrite insert_insert_eq.
           do 2 f_equal. set_solver.
        -- intros v. rewrite Hus. rewrite Hother by reflexivity.
           unfold t2. simpl.
           destruct (decide (v ∈ l)) as [Hvl|Hvl];
             destruct (decide (v ∈ u :: l)) as [Hvul|Hvul].
           ++ destruct (in_other_channel v name (channels t)); [|reflexivity].
              rewrite lookup_delete_ne; [reflexivity|].
              intros ->. contradiction.
           ++ exfalso. apply Hvul. right. exact Hvl.
           ++ apply elem_of_cons in Hvul as [->|Hvl']; [|contradiction].
              rewrite Hu. apply lookup_delete_eq.
           ++ rewrite lookup_delete_ne; [reflexivity|].
              intros ->. apply Hvul. left.
Qed.

(** C9, as the specification words it, fails in two kinds of state.  When a
    member of the channel has no user record and is in no other channel,
    [_destroy_channel] raises [KeyError] out of [_destroy_user] and the
    channel stays in the mapping.  When the channel's name is the empty
    string, [_destroy_user] takes it for "no channel given": the member is
    removed from every channel and loses its record although it is a member
    elsewhere. *)
Lemma destroy_channel_counterexample :
  (is_Some (channels server_in_channel !! "#a")
   /\ fst (_destroy_channel "#a" server_in_channel)
      = Raise (KeyError "irc.example.net")
   /\ is_Some (channels (snd (_destroy_channel "#a" server_in_channel)) !! "#a"))
  /\ (let s := set_users {["bob" := mkUser "bob" None None None]}
                 (set_channels {["" := room ["bob"]; "#b" := room ["bob"]]}
                    fresh_client) in
      is_Some (channels s !! "")
      /\ fst (_destroy_channel "" s) = Return tt
      /\ ch_users <$> (channels s !! "#b") = Some {["bob"]}
      /\ ch_users <$> (channels (snd (_destroy_channel "" s)) !! "#b") = Some ∅
      /\ users (snd (_destroy_channel "" s)) !! "bob" = None).
Proof.
  split.
  - split; [eexists; vm_compute; reflexivity|].
    split; [vm_compute; reflexivity|].
    eexists; vm_compute; reflexivity.
  - cbv zeta. split; [eexists; vm_compute; reflexivity|].
    repeat split; vm_compute; reflexivity.
Qed.

(** C9 (amended): for a channel with a non-empty name that is present in
    the store, and provided every member that is in no other channel has a
    user record, [_destroy_channel] returns, removes the channel from the
    mapping and leaves every other channel's entry as it was, deletes the
    record of every former member for whom it was the only channel, and
    keeps every other record. *)
Theorem destroy_channel_removes (s : Client) (name : string) (ch : Channel)
    (Hname : name <> "")
    (Hpresent : channels s !! name = Some ch)
    (Hrecords : forall u, u ∈ ch_users ch ->
                  in_other_channel u name (channels s) = false ->
                  is_Some (users s !! u)) :
  exists s',
    _destroy_channel name s = (Return tt, s')
    /\ channels s' = delete name (channels s)
    /\ channels s' !! name = None
    /\ (forall other, other <> name -> channels s' !! other = channels s !! other)
    /\ (forall u, u ∈ ch_users ch ->
          in_other_channel u name (channels s) = false ->
          users s' !! u = None)
    /\ (forall u, u ∉ ch_users ch \/ in_other_channel u name (channels s) = true ->
          users s' !! u = users s !! u).
Proof.
  assert (Hch : channels s !! name = Some (mkChannel (ch_users ch)))
    by (rewrite Hpresent; destruct ch; reflexivity).
  destruct (destroy_members name Hname (elements (ch_users ch)) s (ch_users ch))
    as (t & Hrun & Hchs & Hus).
  - exact Hch.
  - apply NoDup_elements.
  - intros u Hu. apply Hrecords. apply elem_of_elements. exact Hu.
  - assert (Ht : channels t !! name
                 = Some (mkChannel (ch_users ch ∖ list_to_set (elements (ch_users ch)))))
      by (rewrite Hchs; apply lookup_insert_eq).
    exists (set_channels (delete name (channels t)) t).
    assert (Hdel : delete name (channels t) = delete name (channels s))
      by (rewrite Hchs; apply delete_insert_eq).
    split; [|split; [|split; [|split; [|split]]]].
    + unfold _destroy_channel, channel_item, del_channel. run.
      rewrite Hpresent. run. rewrite Hrun. run. rewrite Ht. reflexivity.
    + simpl. exact Hdel.
    + simpl. apply lookup_delete_eq.
    + intros other Hne. simpl. rewrite Hdel. apply lookup_delete_ne. congruence.
    + intros u Hin Hother. simpl. rewrite Hus.
      destruct (decide (u ∈ elements (ch_users ch))) as [_|Hn].
      * rewrite Hother. reflexivity.
      * exfalso. apply Hn. apply elem_of_elements. exact Hin.
    + intros u Hu. simpl. rewrite Hus.
      destruct (decide (u ∈ elements (ch_users ch))) as [Hin|_]; [|reflexivity].
      destruct Hu as [Hn|Ho].
      * exfalso. apply Hn. apply elem_of_elements. exact Hin.
      * rewrite Ho. reflexivity.
Qed.

Lemma destroy_channel_removes_witness :
  exists s',
    _destroy_channel "#a" two_rooms = (Return tt, s')
    /\ channels s' = delete "#a" (channels two_rooms).
Proof.
  destruct (destroy_channel_removes two_rooms "#a" (room ["bob"; "al"]))
    as (s' & Hrun & Hchs & _).
  - discriminate.
  - vm_compute. reflexivity.
  - intros u Hu Hother.
    assert (Hcases : u = "bob" \/ u = "al").
    { unfold room in Hu. simpl in Hu. set_solver. }
    destruct Hcases as [->| ->].
    + eexists. vm_compute. reflexivity.
    + eexists. vm_compute. reflexivity.
  - exists s'. split; assumption.
Defined.

Example destroy_channel_two_rooms :
  let s' := snd (_destroy_channel "#a" two_rooms) in
  users s' !! "bob" = None
  /\ user_username <$> (users s' !! "al") = Some (Some "alice")
  /\ ch_users <$> (channels s' !! "#b") = Some {["al"]}
  /\ channels s' !! "#a" = None.
Proof. vm_compute. repeat split; reflexivity. Qed.

(** C8, as the specification words it, fails in two ways.  Renaming a known
    user to its own nickname deletes the record instead of relocating it.
    Renaming an unknown user to a name with a dot (a server) creates no
    record. *)
Lemma rename_user_counterexample :
  (let s := set_users {["bob" := mkUser "bob" (Some "robert") None None]}
              (set_channels {["#a" := room ["bob"]]} fresh_client) in
   is_Some (users s !! "bob")
   /\ users (snd (_rename_user "bob" "bob" s)) !! "bob" = None)
  /\ (users fresh_client !! "ghost" = None
      /\ users (snd (_rename_user "ghost" "irc.example.net" fresh_client))
           !! "irc.example.net" = None).
Proof.
  split.
  - cbv zeta. split; [eexists; vm_compute; reflexivity|].
    vm_compute. reflexivity.
  - split; vm_compute; reflexivity.
Qed.

Lemma rename_member_spec old new ch :
  old <> new ->
  (old ∈ ch_users ch ->
     new ∈ ch_users (rename_member old new ch)
     /\ old ∉ ch_users (rename_member old new ch))
  /\ (old ∉ ch_users ch -> rename_member old new ch = ch).
Proof.
  intros Hne. unfold rename_member. split; intros H.
  - rewrite bool_decide_eq_true_2 by exact H. simpl. split.
    + apply elem_of_union. right. apply elem_of_singleton. reflexivity.
    + intros Hin. apply elem_of_union in Hin as [Hin|Hin].
      * apply elem_of_difference in Hin as [_ Hn].
        apply Hn, elem_of_singleton. reflexivity.
      * apply elem_of_singleton in Hin. contradiction.
  - rewrite bool_decide_eq_false_2 by exact H. reflexivity.
Qed.

(** C8 (amended): for [old] different from [new] where [old] has a record,
    [_rename_user] returns, moves the record to key [new] with its
    username, realname and hostname kept and its nickname field set to
    [new], removes key [old], keeps all other records, and in every channel
    that had [old] as a member puts [new] in its place; channels without
    [old] are unchanged.  When [old] has no record, the users mapping
    becomes what [_create_user(new)] makes of it: a fresh record for [new]
    when [new] is not empty and has no dot, and no change otherwise. *)
Theorem rename_user_relocates (s : Client) (old new : string) :
  let s' := snd (_rename_user old new s) in
  (forall record,
     old <> new -> users s !! old = Some record ->
     _rename_user old new s = (Return tt, s')
     /\ users s' !! new
        = Some (mkUser new (user_username record) (user_realname record)
                  (user_hostname record))
     /\ users s' !! old = None
     /\ (forall other, other <> old -> other <> new ->
           users s' !! other = users s !! other)
     /\ (forall c ch, channels s !! c = Some ch -> old ∈ ch_users ch ->
           exists ch', channels s' !! c = Some ch'
                       /\ new ∈ ch_users ch' /\ old ∉ ch_users ch')
     /\ (forall c ch, channels s !! c = Some ch -> old ∉ ch_users ch ->
           channels s' !! c = Some ch))
  /\ (users s !! old = None ->
      users s' = users (snd (_create_user new s))
      /\ (is_user_name new = true ->
            users s' !! new = Some (mkUser new None None None)
            /\ forall other, other <> new ->
                 users s' !! other = users s !! other)
      /\ (is_user_name new = false -> users s' = users s)).
Proof.
  cbv zeta. split.
  - intros record Hne Hrec.
    assert (Hrun : _rename_user old new s =
              (Return tt,
               set_channels (rename_member old new <$> channels s)
                 (set_users
                    (delete old
                       (<[new := mkUser new (user_username record)
                                   (user_realname record) (user_hostname record)]>
                          (users s))) s))).
    { unfold _rename_user. run. rewrite Hrec. run. reflexivity. }
    rewrite Hrun. simpl.
    split; [reflexivity|]. split; [|split; [|split; [|split]]].
    + rewrite lookup_delete_ne by exact Hne. apply lookup_insert_eq.
    + apply lookup_delete_eq.
    + intros other Ho Hn. rewrite lookup_delete_ne by congruence.
      apply lookup_insert_ne. congruence.
    + intros c ch Hc Hin. exists (rename_member old new ch).
      split; [rewrite lookup_fmap, Hc; reflexivity|].
      apply (rename_member_spec old new ch Hne). exact Hin.
    + intros c ch Hc Hnin. rewrite lookup_fmap, Hc. simpl. f_equal.
      apply (rename_member_spec old new ch); [congruence | exact Hnin].
  - intros Hnone. unfold is_user_name, _rename_user, _create_user. run.
    rewrite Hnone.
    destruct (String.eqb new "") eqn:Hempty; run.
    + split; [reflexivity|]. split; [discriminate|]. reflexivity.
    + destruct (contains_char "." new) eqn:Hdot; run.
      * split; [reflexivity|]. split; [discriminate|]. reflexivity.
      * split; [reflexivity|]. split; [|discriminate].
        intros _. split; [apply lookup_insert_eq|].
        intros other Ho. apply lookup_insert_ne. congruence.
Qed.

Lemma rename_user_relocates_witness :
  users (snd (_rename_user "al" "alice" two_rooms)) !! "alice"
    = Some (mkUser "alice" (Some "alice") None (Some "example.org"))
  /\ users (snd (_rename_user "ghost" "casper" two_rooms)) !! "casper"
     = Some (mkUser "casper" None None None).
Proof.
  destruct (rename_user_relocates two_rooms "al" "alice") as [Hknown _].
  destruct (rename_user_relocates two_rooms "ghost" "casper") as [_ Hunknown].
  split.
  - apply (Hknown (mkUser "al" (Some "alice") None (Some "example.org"))).
    + discriminate.
    + vm_compute. reflexivity.
  - apply Hunknown.
    + vm_compute. reflexivity.
    + vm_compute. reflexivity.
Defined.

(** In [BasicClient] itself the branch for an unknown [old] does not get
    past its [await]: [_create_user] is not a coroutine. *)
Lemma rename_user_unknown_raises (s : Client) (old new : string) :
  users s !! old = None ->
  fst (_rename_user old new s)
  = Raise (TypeError "object NoneType can't be used in 'await' expression").
Proof.
  intros Hnone. unfold _rename_user, _create_user. run. rewrite Hnone.
  destruct (String.eqb new ""); [reflexivity|].
  destruct (contains_char "." new); reflexivity.
Qed.

Example rename_user_two_rooms :
  let s' := snd (_rename_user "al" "alice" two_rooms) in
  ch_users <$> (channels s' !! "#a") = Some {["bob"; "alice"]}
  /\ ch_users <$> (channels s' !! "#b") = Some {["alice"]}
  /\ users s' !! "al" = None.
Proof. vm_compute. repeat split; reflexivity. Qed.

Example reconnect_delay_examples :
  map (fun n => fst (_reconnect_delay BasicClient_config
                       (set_reconnect_attempts n fresh_client)))
      [0; 1; 2; 3; 4; 5; 6; 7; 100]
  = map Return [5; 5; 10; 30; 120; 600; 600; 600; 600].
Proof. vm_compute. reflexivity. Qed.

(** ** Properties of the life cycle *)

Lemma py_index_nonneg {A} (l : list A) (i : Z) (x : A) (s : Client) :
  0 <= i -> l !! Z.to_nat i = Some x -> py_index l i s = (Return x, s).
Proof.
  intros Hi Hx. unfold py_index.
  pose proof (lookup_lt_Some _ _ _ Hx) as Hlen.
  replace (i <? 0) with false by (symmetry; apply Z.ltb_ge; lia).
  replace (i <? 0) with false by (symmetry; apply Z.ltb_ge; lia).
  replace (Z.of_nat (length l) <=? i) with false
    by (symmetry; apply Z.leb_gt; lia).
  simpl. rewrite Hx. reflexivity.
Qed.

(** The delay as a single lookup: past the end of the table the last
    entry, 600, is used. *)
Lemma reconnect_delay_lookup (cfg : Config) (s : Client) :
  RECONNECT_ON_ERROR cfg = true ->
  RECONNECT_DELAYED cfg = true ->
  RECONNECT_DELAYS cfg = [5; 5; 10; 30; 120; 600] ->
  0 <= _reconnect_attempts s ->
  _reconnect_delay cfg s
  = (Return (default 600 ([5; 5; 10; 30; 120; 600]
                            !! Z.to_nat (_reconnect_attempts s))), s).
Proof.
  intros Hon Hdelayed Htable Hcount.
  unfold _reconnect_delay. rewrite Hon, Hdelayed, Htable. run.
  set (n := _reconnect_attempts s) in *.
  change (Z.of_nat (length [5; 5; 10; 30; 120; 600])) with 6.
  destruct (Z.leb_spec 6 n) as [Hge|Hlt].
  - rewrite lookup_ge_None_2 by (simpl; lia). reflexivity.
  - destruct (lookup_lt_is_Some_2 [5; 5; 10; 30; 120; 600] (Z.to_nat n))
      as [d Hd]; [simpl; lia|].
    rewrite Hd. apply py_index_nonneg; assumption.
Qed.

(** C3: with reconnection and delayed reconnection enabled and the default
    delay table, the delay computed for attempt counter [n] is the table's
    entry at index [n] for [n] from 0 to 5, and 600, the last entry, for
    every [n] from 6 on. *)
Theorem reconnect_delay_table (cfg : Config) (s : Client)
    (Hon : RECONNECT_ON_ERROR cfg = true)
    (Hdelayed : RECONNECT_DELAYED cfg = true)
    (Htable : RECONNECT_DELAYS cfg = [5; 5; 10; 30; 120; 600])
    (Hcount : 0 <= _reconnect_attempts s) :
  (forall d, _reconnect_attempts s <= 5 ->
             [5; 5; 10; 30; 120; 600] !! Z.to_nat (_reconnect_attempts s) = Some d ->
             _reconnect_delay cfg s = (Return d, s))
  /\ (6 <= _reconnect_attempts s -> _reconnect_delay cfg s = (Return 600, s))
  /\ exists d, _reconnect_delay cfg s = (Return d, s).
Proof.
  rewrite (reconnect_delay_lookup cfg s Hon Hdelayed Htable Hcount).
  split; [|split].
  - intros d _ Hd. rewrite Hd. reflexivity.
  - intros Hge. rewrite lookup_ge_None_2 by (simpl; lia). reflexivity.
  - eexists. reflexivity.
Qed.

Lemma reconnect_delay_table_witness :
  _reconnect_delay BasicClient_config (set_reconnect_attempts 4 fresh_client)
    = (Return 120, set_reconnect_attempts 4 fresh_client)
  /\ _reconnect_delay BasicClient_config (set_reconnect_attempts 9 fresh_client)
     = (Return 600, set_reconnect_attempts 9 fresh_client).
Proof.
  split.
  - apply (reconnect_delay_table BasicClient_config
             (set_reconnect_attempts 4 fresh_client)); simpl; try reflexivity; lia.
  - apply (reconnect_delay_table BasicClient_config
             (set_reconnect_attempts 9 fresh_client)); simpl; try reflexivity; lia.
Defined.

Lemma on_disconnect_expected `{Transport} cfg fuel :
  on_disconnect cfg fuel true = ret tt.
Proof. destruct fuel; reflexivity. Qed.

Lemma tame_bind {A B} (m : M A) (k : A -> M B) :
  tame m -> (forall a, tame (k a)) -> tame (bind m k).
Proof.
  intros Hm Hk s. unfold bind. destruct (Hm s) as [Hfuel Hvalue].
  destruct (m s) as [[a|e|] s']; simpl in *.
  - apply Hk.
  - split; [discriminate|]. intros msg E. apply (Hvalue msg). congruence.
  - exfalso. apply Hfuel. reflexivity.
Qed.

Lemma tame_ret {A} (a : A) : tame (ret a).
Proof. intros s. split; [|intros msg]; discriminate. Qed.

Lemma tame_gets {A} (f : Client -> A) : tame (gets f).
Proof. intros s. split; [|intros msg]; discriminate. Qed.

Lemma tame_modify f : tame (modify f).
Proof. intros s. split; [|intros msg]; discriminate. Qed.

Lemma tame_raise {A} e :
  (forall msg, e <> ValueError msg) -> tame (@raise A e).
Proof.
  intros He s. split; [discriminate|]. intros msg E. apply (He msg).
  simpl in E. congruence.
Qed.

Lemma tame_when b m : tame m -> tame (when b m).
Proof. intros Hm. destruct b; [exact Hm | apply tame_ret]. Qed.

Lemma tame_on_connection op : tame (on_connection op).
Proof.
  unfold on_connection. apply tame_bind; [apply tame_gets|].
  intros [c|]; [|apply tame_raise; discriminate].
  destruct (op c); [apply tame_raise; discriminate | apply tame_modify].
Qed.

Lemma tame_py_index {A} (l : list A) i : tame (py_index l i).
Proof.
  unfold py_index.
  destruct ((_ <? 0) || _); [apply tame_raise; discriminate|].
  destruct (l !! _); [apply tame_ret | apply tame_raise; discriminate].
Qed.

Create HintDb tame.
#[export] Hint Resolve tame_ret tame_gets tame_modify tame_when
  tame_on_connection tame_py_index : tame.

Ltac tame :=
  repeat first
    [ solve [auto with tame]
    | apply tame_when
    | apply tame_bind; [|intros ?] ].

Lemma tame_connect_body `{Transport} cfg fuel hostname port reconnect kw :
  tame
    (c <- gets connected;;
     when c (disconnect (on_disconnect cfg fuel) true);;
     when (negb reconnect) _reset_connection_attributes;;
     _connect hostname port reconnect kw;;
     modify (spawn Task_handle_forever)).
Proof.
  unfold disconnect, _disconnect, _connect, _reset_attributes,
    _reset_connection_attributes.
  rewrite on_disconnect_expected. tame.
Qed.

(** One level of nesting is all [on_disconnect] ever uses: with any fuel
    from 1 on it gives the same result, and never runs out. *)
Lemma on_disconnect_fuel `{Transport} cfg fuel expected s :
  on_disconnect cfg (S fuel) expected s = on_disconnect cfg 1 expected s.
Proof.
  cbn [on_disconnect]. unfold connect, disconnect, _disconnect.
  rewrite !on_disconnect_expected. reflexivity.
Qed.

Lemma on_disconnect_terminates `{Transport} cfg fuel expected s :
  fst (on_disconnect cfg (S fuel) expected s) <> OutOfFuel.
Proof.
  assert (Htame : tame (on_disconnect cfg (S fuel) expected)).
  { cbn [on_disconnect]. destruct expected; simpl negb; cbv iota;
      [apply tame_ret|].
    apply tame_bind; [apply tame_gets|]. intros n.
    destruct (RECONNECT_ON_ERROR cfg && _); [|apply tame_modify].
    apply tame_bind.
    { unfold _reconnect_delay.
      destruct (RECONNECT_ON_ERROR cfg && RECONNECT_DELAYED cfg);
        [|apply tame_ret].
      apply tame_bind; [apply tame_gets|]. intros k.
      destruct (_ <=? k); apply tame_py_index. }
    intros delay.
    apply tame_bind; [apply tame_modify|]. intros _.
    apply tame_bind; [destruct (0 <? delay); apply tame_modify|]. intros _.
    apply tame_bind; [apply tame_modify|]. intros _.
    unfold connect.
    change ((negb (truthy_str None) || negb (truthy_int None)) && negb true)
      with false. cbv iota.
    apply tame_connect_body. }
  apply Htame.
Qed.

(** C7, as the specification words it, fails: a call that is not a
    reconnection and gives the hostname but no port is rejected with the
    invalid-argument error, and so is one that gives the port but no
    hostname. *)
Lemma connect_one_argument_counterexample :
  @connect MockTransport (@on_disconnect MockTransport BasicClient_config 1)
    (Some "irc.example.net") None false (@no_kwargs MockTransport) fresh_client
  = (Raise (ValueError "Have to specify hostname and port if not reconnecting."),
     fresh_client)
  /\ @connect MockTransport (@on_disconnect MockTransport BasicClient_config 1)
       None (Some 6667) false (@no_kwargs MockTransport) fresh_client
     = (Raise (ValueError "Have to specify hostname and port if not reconnecting."),
        fresh_client).
Proof. split; reflexivity. Qed.

(** C7 (amended): [connect] fails with the invalid-argument error exactly
    when the call is not a reconnection and the hostname or the port is
    missing (absent, or the empty string, or zero); the client is then left
    untouched.  A call that gives only one of the two is rejected. *)
Theorem connect_argument_check `{Transport} (cfg : Config) (fuel : nat)
    (hostname : option string) (port : option Z) (reconnect : bool)
    (kw : Kwargs) (s : Client) :
  ((exists msg,
      fst (connect (on_disconnect cfg fuel) hostname port reconnect kw s)
      = Raise (ValueError msg))
   <-> (truthy_str hostname = false \/ truthy_int port = false)
       /\ reconnect = false)
  /\ (arguments_missing hostname port reconnect = true ->
      connect (on_disconnect cfg fuel) hostname port reconnect kw s
      = (Raise (ValueError "Have to specify hostname and port if not reconnecting."),
         s)).
Proof.
  assert (Hreject : arguments_missing hostname port reconnect = true ->
            connect (on_disconnect cfg fuel) hostname port reconnect kw s
            = (Raise (ValueError
                 "Have to specify hostname and port if not reconnecting."), s)).
  { unfold arguments_missing, connect. intros ->. reflexivity. }
  split; [|exact Hreject]. split.
  - intros [msg Hraise].
    destruct (arguments_missing hostname port reconnect) eqn:Hcheck.
    + unfold arguments_missing in Hcheck.
      apply andb_true_iff in Hcheck as [Hargs Hrec].
      apply negb_true_iff in Hrec. split; [|exact Hrec].
      apply orb_true_iff in Hargs as [Hh|Hp]; apply negb_true_iff in Hh || apply negb_true_iff in Hp; auto.
    + exfalso. revert Hraise. unfold arguments_missing in Hcheck.
      unfold connect. rewrite Hcheck.
      intros Hraise.
      apply (proj2 (tame_connect_body cfg fuel hostname port reconnect kw s) msg).
      exact Hraise.
  - intros [Hargs Hrec]. eexists. rewrite Hreject; [reflexivity|].
    unfold arguments_missing. rewrite Hrec.
    destruct Hargs as [-> | ->]; simpl; [reflexivity|].
    rewrite orb_true_r. reflexivity.
Qed.

Lemma connect_argument_check_witness :
  arguments_missing None (Some 6667) false = true
  /\ @connect MockTransport (@on_disconnect MockTransport BasicClient_config 1)
       None (Some 6667) false (@no_kwargs MockTransport) two_rooms
     = (Raise (ValueError "Have to specify hostname and port if not reconnecting."),
        two_rooms).
Proof.
  split; [reflexivity|].
  apply (proj2 (@connect_argument_check MockTransport BasicClient_config 1
                  None (Some 6667) false (@no_kwargs MockTransport) two_rooms)).
  reflexivity.
Defined.

(** C6, as the specification words it, fails: [connect] with
    [reconnect=False] on a client that is not connected returns with the
    channels, the users and the receive buffer as they were, not empty. *)
Lemma connect_not_connected_counterexample :
  let s' := snd (@connect MockTransport
                   (@on_disconnect MockTransport BasicClient_config 1)
                   (Some "irc.example.net") (Some 6667) false
                   (@no_kwargs MockTransport) stale_client) in
  connected stale_client = false
  /\ fst (@connect MockTransport
            (@on_disconnect MockTransport BasicClient_config 1)
            (Some "irc.example.net") (Some 6667) false
            (@no_kwargs MockTransport) stale_client) = Return tt
  /\ connected s' = true
  /\ ch_users <$> (channels s' !! "#a") = Some {["bob"]}
  /\ is_Some (users s' !! "bob")
  /\ _receive_buffer s' = "PRIVMSG #a :hel".
Proof.
  cbv zeta. repeat split; try (vm_compute; reflexivity).
  eexists. vm_compute. reflexivity.
Qed.

(** C6 (amended): a call of [connect] with [reconnect=False], a hostname
    and a port, on which the transport does not fail, returns with the
    reconnect counter at zero and the read loop scheduled but not yet run.
    If the client was connected before the call, the channels, the users
    and the receive buffer are empty on return; if it was not connected,
    they are exactly what they were before the call. *)
Theorem connect_fresh_resets `{Transport} (cfg : Config) (fuel : nat)
    (hostname : option string) (port : option Z) (kw : Kwargs) (s : Client)
    (Hargs : arguments_missing hostname port false = false)
    (Hdown : forall c, connection s = Some c -> conn_connected c = true ->
                       exists c', Connection_disconnect c = inr c')
    (Hup : exists c', Connection_connect
                        (mkConnection hostname port (kw_source_address kw) false)
                      = inr c') :
  exists s',
    connect (on_disconnect cfg fuel) hostname port false kw s = (Return tt, s')
    /\ _reconnect_attempts s' = 0
    /\ tasks s' = (tasks s ++ [Task_handle_forever])%list
    /\ (connected s = true ->
          channels s' = ∅ /\ users s' = ∅ /\ _receive_buffer s' = "")
    /\ (connected s = false ->
          channels s' = channels s /\ users s' = users s
          /\ _receive_buffer s' = _receive_buffer s).
Proof.
  destruct Hup as [c2 Hup].
  unfold arguments_missing in Hargs.
  unfold connect. rewrite Hargs.
  unfold disconnect, _disconnect, _connect, on_connection,
    _reset_attributes, _reset_connection_attributes.
  rewrite on_disconnect_expected. unfold connected.
  destruct s as [chs us buf top nick net conn enc auto att tr tk].
  cbn [connection] in Hdown.
  destruct conn as [c|]; [destruct (conn_connected c) eqn:Hcc|].
  - destruct (Hdown c eq_refl Hcc) as [c1 Hc1].
    repeat (run; first [rewrite Hcc | rewrite Hc1 | rewrite Hup]). run.
    eexists. split; [reflexivity|]. simpl.
    repeat split; intros; congruence.
  - repeat (run; first [rewrite Hcc | rewrite Hup]). run.
    eexists. split; [reflexivity|]. simpl.
    repeat split; intros; congruence.
  - run. rewrite Hup.
    eexists. split; [reflexivity|]. simpl.
    repeat split; intros; congruence.
Qed.

Lemma connect_fresh_resets_witness :
  exists s',
    @connect MockTransport (@on_disconnect MockTransport BasicClient_config 1)
      (Some "irc.example.org") (Some 6697) false (@no_kwargs MockTransport)
      online_client = (Return tt, s')
    /\ _reconnect_attempts s' = 0.
Proof.
  destruct (@connect_fresh_resets MockTransport BasicClient_config 1
              (Some "irc.example.org") (Some 6697) (@no_kwargs MockTransport)
              online_client) as (s' & Hrun & Hzero & _).
  - reflexivity.
  - intros c _ _. eexists. reflexivity.
  - eexists. reflexivity.
  - exists s'. split; assumption.
Defined.

Example connect_online_example :
  let s' := snd (@connect MockTransport
                   (@on_disconnect MockTransport BasicClient_config 1)
                   (Some "irc.example.org") (Some 6697) false
                   (@no_kwargs MockTransport) online_client) in
  channels s' = ∅ /\ users s' = ∅ /\ _receive_buffer s' = ""
  /\ connected s' = true.
Proof. vm_compute. repeat split; reflexivity. Qed.

Lemma on_disconnect_retry `{Transport} cfg fuel s delay :
  RECONNECT_ON_ERROR cfg = true ->
  match RECONNECT_MAX_ATTEMPTS cfg with
  | None => true
  | Some limit => _reconnect_attempts s <? limit
  end = true ->
  _reconnect_delay cfg s = (Return delay, s) ->
  on_disconnect cfg (S fuel) false s
  = connect (on_disconnect cfg fuel) None None true no_kwargs
      (after_backoff delay s).
Proof.
  intros Hon Hbelow Hdelay. cbn [on_disconnect]. run.
  rewrite Hon, Hbelow. run. rewrite Hdelay. unfold after_backoff.
  destruct (0 <? delay); reflexivity.
Qed.

Lemma on_disconnect_give_up `{Transport} cfg fuel s limit :
  RECONNECT_MAX_ATTEMPTS cfg = Some limit ->
  limit <= _reconnect_attempts s ->
  on_disconnect cfg fuel false s
  = (Return tt, emit (Log ERROR "Unexpected disconnect. Giving up." []) s).
Proof.
  intros Hmax Hge.
  assert (Hlt : (_reconnect_attempts s <? limit) = false)
    by (apply Z.ltb_ge; exact Hge).
  destruct fuel; cbn [on_disconnect]; run; rewrite Hmax, Hlt;
    destruct (RECONNECT_ON_ERROR cfg); reflexivity.
Qed.

Lemma keeps_bind {A B C} (f : Client -> A) (m : M B) (k : B -> M C) :
  keeps f m -> (forall b, keeps f (k b)) -> keeps f (bind m k).
Proof.
  intros Hm Hk s. unfold bind. specialize (Hm s).
  destruct (m s) as [[b|e|] s']; simpl in *.
  - rewrite Hk. exact Hm.
  - exact Hm.
  - exact Hm.
Qed.

Lemma keeps_ret {A B} (f : Client -> A) (b : B) : keeps f (ret b).
Proof. intros s. reflexivity. Qed.

Lemma keeps_raise {A B} (f : Client -> A) e : keeps f (@raise B e).
Proof. intros s. reflexivity. Qed.

Lemma keeps_gets {A B} (f : Client -> A) (g : Client -> B) : keeps f (gets g).
Proof. intros s. reflexivity. Qed.

Lemma keeps_modify {A} (f : Client -> A) g :
  (forall s, f (g s) = f s) -> keeps f (modify g).
Proof. intros Hg s. apply Hg. Qed.

Lemma keeps_when {A} (f : Client -> A) b m : keeps f m -> keeps f (when b m).
Proof. intros Hm. destruct b; [exact Hm | apply keeps_ret]. Qed.

Lemma keeps_on_connection {A} (f : Client -> A) op :
  (forall c s, f (set_connection c s) = f s) -> keeps f (on_connection op).
Proof.
  intros Hf. unfold on_connection. apply keeps_bind; [apply keeps_gets|].
  intros [c|]; [|apply keeps_raise].
  destruct (op c); [apply keeps_raise|]. apply keeps_modify. intros s. apply Hf.
Qed.

(** [connect(reconnect=True)] leaves the attempt counter alone, however it
    ends. *)
Lemma connect_reconnect_keeps_attempts `{Transport} cfg fuel kw :
  keeps _reconnect_attempts
    (connect (on_disconnect cfg fuel) None None true kw).
Proof.
  unfold connect.
  change ((negb (truthy_str None) || negb (truthy_int None)) && negb true)
    with false. cbv iota.
  unfold disconnect, _disconnect, _connect, _reset_attributes.
  rewrite on_disconnect_expected.
  repeat first
    [ apply keeps_ret | apply keeps_gets
    | apply keeps_on_connection; reflexivity
    | apply keeps_modify; reflexivity
    | apply keeps_when
    | apply keeps_bind; [|intros ?] ].
Qed.

Lemma preserves_bind {B C} (P : Client -> Prop) (m : M B) (k : B -> M C) :
  preserves P m -> (forall b, preserves P (k b)) -> preserves P (bind m k).
Proof.
  intros Hm Hk s Hs. unfold bind. specialize (Hm s Hs).
  destruct (m s) as [[b|e|] s']; simpl in *.
  - apply Hk. exact Hm.
  - exact Hm.
  - exact Hm.
Qed.

Lemma preserves_pure {B} (P : Client -> Prop) (m : M B) :
  (forall s, snd (m s) = s) -> preserves P m.
Proof. intros Hm s Hs. rewrite Hm. exact Hs. Qed.

Lemma preserves_modify (P : Client -> Prop) g :
  (forall s, P s -> P (g s)) -> preserves P (modify g).
Proof. intros Hg s Hs. apply Hg. exact Hs. Qed.

Lemma preserves_when (P : Client -> Prop) b m :
  preserves P m -> preserves P (when b m).
Proof. intros Hm. destruct b; [exact Hm | apply preserves_pure; reflexivity]. Qed.

Lemma preserves_keeps {A B} (f : Client -> A) (Q : A -> Prop) (m : M B) :
  keeps f m -> preserves (fun s => Q (f s)) m.
Proof. intros Hm s Hs. rewrite Hm. exact Hs. Qed.

Lemma py_index_pure {A} (l : list A) i s : snd (py_index l i s) = s.
Proof.
  unfold py_index. destruct ((_ <? 0) || _); [reflexivity|].
  destruct (l !! _); reflexivity.
Qed.

Lemma reconnect_delay_pure cfg s : snd (_reconnect_delay cfg s) = s.
Proof.
  unfold _reconnect_delay.
  destruct (RECONNECT_ON_ERROR cfg && RECONNECT_DELAYED cfg); [|reflexivity].
  run. destruct (_ <=? _reconnect_attempts s); apply py_index_pure.
Qed.

(** The attempt counter never goes below zero: [connect] keeps it or sets
    it to zero, [on_disconnect] keeps it or adds one. *)
Lemma connect_attempts_nonnegative `{Transport} cfg fuel hostname port reconnect kw :
  preserves (fun s => 0 <= _reconnect_attempts s)
    (connect (on_disconnect cfg fuel) hostname port reconnect kw).
Proof.
  unfold connect.
  destruct ((negb (truthy_str hostname) || negb (truthy_int port))
            && negb reconnect); [apply preserves_pure; reflexivity|].
  unfold disconnect, _disconnect, _connect, _reset_attributes,
    _reset_connection_attributes.
  rewrite on_disconnect_expected.
  repeat first
    [ apply preserves_pure; reflexivity
    | apply (preserves_keeps _reconnect_attempts (fun n => 0 <= n));
      apply keeps_on_connection; reflexivity
    | apply preserves_modify; intros s Hs; simpl; first [exact Hs | lia]
    | apply preserves_when
    | apply preserves_bind; [|intros ?] ].
Qed.

Lemma on_disconnect_attempts_nonnegative `{Transport} cfg fuel expected :
  preserves (fun s => 0 <= _reconnect_attempts s)
    (on_disconnect cfg fuel expected).
Proof.
  destruct expected; [destruct fuel; apply preserves_pure; reflexivity|].
  assert (Hbody : forall tail : M unit,
            preserves (fun s => 0 <= _reconnect_attempts s) tail ->
            preserves (fun s => 0 <= _reconnect_attempts s)
              (n <- gets _reconnect_attempts;;
               if RECONNECT_ON_ERROR cfg
                  && match RECONNECT_MAX_ATTEMPTS cfg with
                     | None => true
                     | Some limit => n <? limit
                     end
               then
                 delay <- _reconnect_delay cfg;;
                 modify (fun s =>
                   set_reconnect_attempts (_reconnect_attempts s + 1) s);;
                 (if 0 <? delay
                  then modify (emit (Log ERROR
                    "Unexpected disconnect. Attempting to reconnect within %s seconds."
                    [PyInt delay]))
                  else modify (emit (Log ERROR
                    "Unexpected disconnect. Attempting to reconnect." [])));;
                 modify (emit (Slept delay));;
                 tail
               else modify (emit (Log ERROR "Unexpected disconnect. Giving up." [])))).
  { intros tail Htail.
    apply preserves_bind; [apply preserves_pure; reflexivity|]. intros n.
    destruct (RECONNECT_ON_ERROR cfg && _);
      [|apply preserves_modify; intros s Hs; exact Hs].
    apply preserves_bind;
      [apply preserves_pure; apply reconnect_delay_pure|]. intros delay.
    apply preserves_bind;
      [apply preserves_modify; intros s Hs; simpl; lia|]. intros _.
    apply preserves_bind;
      [destruct (0 <? delay); apply preserves_modify; intros s Hs; exact Hs|].
    intros _.
    apply preserves_bind;
      [apply preserves_modify; intros s Hs; exact Hs|]. intros _.
    exact Htail. }
  destruct fuel as [|fuel]; cbn [on_disconnect negb]; cbv iota; apply Hbody.
  - intros s Hs. exact Hs.
  - apply connect_attempts_nonnegative.
Qed.

(** C2: with the default configuration (reconnection enabled, at most 3
    attempts), an unexpected disconnect at an attempt counter below 3
    increments the counter and goes on as [connect(reconnect=True)]; a
    successful [on_connect] sets the counter to zero; an unexpected
    disconnect at counter 3 or more only logs that the client gives up and
    makes no reconnect attempt; and that is the state reached by three
    unexpected disconnects in a row from counter zero. *)
Theorem reconnect_policy `{Transport} (fuel : nat) (s : Client) :
  (0 <= _reconnect_attempts s < 3 ->
     exists delay,
       0 < delay
       /\ on_disconnect BasicClient_config (S fuel) false s
          = connect (on_disconnect BasicClient_config fuel) None None true
              no_kwargs (after_backoff delay s)
       /\ _reconnect_attempts (after_backoff delay s) = _reconnect_attempts s + 1
       /\ _reconnect_attempts (unexpected_disconnect BasicClient_config fuel s)
          = _reconnect_attempts s + 1)
  /\ on_connect s = (Return tt, set_reconnect_attempts 0 s)
  /\ (3 <= _reconnect_attempts s ->
        on_disconnect BasicClient_config (S fuel) false s
        = (Return tt, emit (Log ERROR "Unexpected disconnect. Giving up." []) s))
  /\ (_reconnect_attempts s = 0 ->
        let s3 := unexpected_disconnect BasicClient_config fuel
                    (unexpected_disconnect BasicClient_config fuel
                       (unexpected_disconnect BasicClient_config fuel s)) in
        _reconnect_attempts s3 = 3
        /\ on_disconnect BasicClient_config (S fuel) false s3
           = (Return tt, emit (Log ERROR "Unexpected disconnect. Giving up." []) s3)).
Proof.
  assert (Hretry : forall t, 0 <= _reconnect_attempts t < 3 ->
            exists delay,
              0 < delay
              /\ on_disconnect BasicClient_config (S fuel) false t
                 = connect (on_disconnect BasicClient_config fuel) None None true
                     no_kwargs (after_backoff delay t)
              /\ _reconnect_attempts (after_backoff delay t)
                 = _reconnect_attempts t + 1
              /\ _reconnect_attempts (unexpected_disconnect BasicClient_config fuel t)
                 = _reconnect_attempts t + 1).
  { intros t Hn.
    pose proof (reconnect_delay_lookup BasicClient_config t
                  eq_refl eq_refl eq_refl (proj1 Hn)) as Hdelay.
    set (delay := default 600
                    ([5; 5; 10; 30; 120; 600] !! Z.to_nat (_reconnect_attempts t)))
      in Hdelay.
    assert (Hpos : 0 < delay).
    { unfold delay.
      assert (Hcases : _reconnect_attempts t = 0 \/ _reconnect_attempts t = 1
                       \/ _reconnect_attempts t = 2) by lia.
      destruct Hcases as [-> | [-> | ->]]; simpl; lia. }
    assert (Hstep : on_disconnect BasicClient_config (S fuel) false t
                    = connect (on_disconnect BasicClient_config fuel) None None
                        true no_kwargs (after_backoff delay t)).
    { apply on_disconnect_retry; [reflexivity | | exact Hdelay].
      simpl. apply Z.ltb_lt. lia. }
    exists delay. split; [exact Hpos|]. split; [exact Hstep|].
    split; [reflexivity|].
    unfold unexpected_disconnect. rewrite Hstep.
    rewrite connect_reconnect_keeps_attempts. reflexivity. }
  split; [apply Hretry|]. split; [reflexivity|]. split.
  - intros Hge. apply (on_disconnect_give_up _ _ _ 3); [reflexivity | exact Hge].
  - intros Hzero. cbv zeta.
    destruct (Hretry s) as (d1 & _ & _ & _ & H1); [lia|].
    set (s1 := unexpected_disconnect BasicClient_config fuel s) in *.
    destruct (Hretry s1) as (d2 & _ & _ & _ & H2); [lia|].
    set (s2 := unexpected_disconnect BasicClient_config fuel s1) in *.
    destruct (Hretry s2) as (d3 & _ & _ & _ & H3); [lia|].
    set (s3 := unexpected_disconnect BasicClient_config fuel s2) in *.
    assert (Hthree : _reconnect_attempts s3 = 3) by lia.
    split; [exact Hthree|].
    apply (on_disconnect_give_up _ _ _ 3); [reflexivity | lia].
Qed.

Lemma reconnect_policy_witness :
  _reconnect_attempts
    (@unexpected_disconnect MockTransport BasicClient_config 1 online_client) = 1
  /\ fst (@on_disconnect MockTransport BasicClient_config 2 false
            (set_reconnect_attempts 3 online_client)) = Return tt
  /\ _reconnect_attempts
       (@unexpected_disconnect MockTransport BasicClient_config 1
          (@unexpected_disconnect MockTransport BasicClient_config 1
             (@unexpected_disconnect MockTransport BasicClient_config 1
                online_client))) = 3.
Proof.
  pose proof (@reconnect_policy MockTransport 1 online_client)
    as (Hretry & _ & _ & Hthree).
  pose proof (@reconnect_policy MockTransport 1
                (set_reconnect_attempts 3 online_client))
    as (_ & _ & Hgive & _).
  split; [|split].
  - destruct Hretry as (delay & _ & _ & _ & Hone); [simpl; lia|].
    rewrite Hone. reflexivity.
  - rewrite Hgive; [reflexivity | simpl; lia].
  - apply Hthree. reflexivity.
Defined.

Example reconnect_trace_example :
  trace (@unexpected_disconnect MockTransport BasicClient_config 1
           (@unexpected_disconnect MockTransport BasicClient_config 1
              (set_reconnect_attempts 2 fresh_client)))
  = [Log ERROR "Unexpected disconnect. Attempting to reconnect within %s seconds."
       [PyInt 10];
     Slept 10;
     Log ERROR "Unexpected disconnect. Giving up." []].
Proof. vm_compute. reflexivity. Qed.

(** ** Properties of the dispatch *)

Example handler_name_examples :
  @handler_name AsciiText (mkMessage (inr "PRIVMSG") [] None "" true)
  = "on_raw_privmsg"
  /\ @handler_name AsciiText (mkMessage (inl 1) [] None "" true) = "on_raw_001"
  /\ @handler_name AsciiText (mkMessage (inl 433) [] None "" true)
     = "on_raw_433".
Proof. vm_compute. repeat split; reflexivity. Qed.

Lemma handler_name_prefix `{Text} message :
  String.prefix "on_raw_" (handler_name message) = true.
Proof.
  unfold handler_name. generalize (str_lower match command message with
                                             | inl n => zfill 3 (pretty n)
                                             | inr c => c
                                             end).
  intros x. simpl. destruct x; reflexivity.
Qed.

(** [BasicClient] has no handler of its own for any message. *)
Lemma BasicClient_handlers_on_raw attr :
  String.prefix "on_raw_" attr = true -> BasicClient_handlers attr = None.
Proof.
  intros Hprefix. unfold BasicClient_handlers.
  destruct (String.eqb_spec attr "on_unknown") as [->|_];
    [vm_compute in Hprefix; discriminate|].
  destruct (String.eqb_spec attr "_ignored") as [->|_];
    [vm_compute in Hprefix; discriminate|].
  reflexivity.
Qed.

Lemma lookup_on_raw defined attr :
  String.prefix "on_raw_" attr = true -> lookup defined attr = defined attr.
Proof.
  intros Hprefix. unfold lookup.
  rewrite (BasicClient_handlers_on_raw attr Hprefix).
  destruct (defined attr); reflexivity.
Qed.

(** What ordinary lookup finds under the names of the two fall-backs. *)
Lemma lookup_on_unknown defined :
  lookup defined "on_unknown" = Some (self_on_unknown defined).
Proof.
  unfold lookup, self_on_unknown. destruct (defined "on_unknown"); reflexivity.
Qed.

Lemma lookup__ignored defined :
  lookup defined "_ignored" = Some (self__ignored defined).
Proof.
  unfold lookup, self__ignored. destruct (defined "_ignored"); reflexivity.
Qed.

Lemma on_raw_resolved `{Text} defined message s :
  on_raw defined message s
  = try_except (resolve defined message message)
      (fun _ => modify (failure_logged message))
      (entering_handler message s).
Proof.
  unfold on_raw, resolve, entering_handler, getattr, __getattr__.
  rewrite (lookup_on_raw defined _ (handler_name_prefix message)).
  rewrite handler_name_prefix.
  destruct (_valid message); run;
    destruct (defined (handler_name message)); reflexivity.
Qed.

Lemma entering_handler_flag message s :
  _handler_top_level (entering_handler message s) = false.
Proof. reflexivity. Qed.

Lemma on_raw_never_raises `{Text} defined message s e :
  fst (on_raw defined message s) <> Raise e.
Proof.
  rewrite on_raw_resolved. unfold try_except.
  destruct (resolve defined message message (entering_handler message s))
    as [[[]|e'|] s']; discriminate.
Qed.

Lemma run_on_raw_tasks_never_raises `{Text} defined messages :
  forall s e, fst (run_on_raw_tasks defined messages s) <> Raise e.
Proof.
  unfold run_on_raw_tasks.
  induction messages as [|m rest IH]; intros s e; [discriminate|].
  simpl. unfold bind at 1.
  pose proof (on_raw_never_raises defined m s) as Hm.
  destruct (on_raw defined m s) as [[[]|e'|] s']; simpl in *.
  - apply IH.
  - exfalso. apply (Hm e'). reflexivity.
  - discriminate.
Qed.

(** Extraction does not look at the log: draining after an event was logged
    gives the same outcome, tasks and buffer, with the event still there. *)
Lemma drain_emit `{Codec} ev :
  forall fuel s,
    drain fuel (emit ev s) = (fst (drain fuel s), emit ev (snd (drain fuel s))).
Proof.
  induction fuel as [|fuel IH]; intros s.
  - simpl. unfold _has_message. run.
    destruct (has_complete_message (_receive_buffer s)); reflexivity.
  - simpl. unfold _has_message, _parse_message. run.
    destruct (has_complete_message (_receive_buffer s)); [|reflexivity].
    change (_receive_buffer (emit ev s)) with (_receive_buffer s).
    destruct (extract_message (_receive_buffer s)) as [e|[m rest]];
      [reflexivity|].
    run. apply (IH (spawn (Task_on_raw m) (set_receive_buffer rest s))).
Qed.

Lemma on_data_emit `{Codec} ev fuel data s :
  on_data fuel data (emit ev s)
  = (fst (on_data fuel data s), emit ev (snd (on_data fuel data s))).
Proof.
  unfold on_data. run.
  apply (drain_emit ev fuel
           (set_receive_buffer (_receive_buffer s +:+ data) s)).
Qed.

(** With a codec that consumes what it extracts, the loop of [on_data]
    ends: fuel beyond the length of the buffer is never used up. *)
Lemma drain_terminates `{Codec}
    (Hconsumes : forall buffer message rest,
       extract_message buffer = inr (message, rest) ->
       (String.length rest < String.length buffer)%nat) :
  forall fuel s,
    (String.length (_receive_buffer s) < fuel)%nat ->
    fst (drain fuel s) <> OutOfFuel.
Proof.
  induction fuel as [|fuel IH]; intros s Hlen; [lia|].
  simpl. unfold _has_message, _parse_message. run.
  destruct (has_complete_message (_receive_buffer s)); [|discriminate].
  destruct (extract_message (_receive_buffer s)) as [e|[m rest]] eqn:Hextract;
    [discriminate|].
  run. apply (IH (spawn (Task_on_raw m) (set_receive_buffer rest s))).
  simpl. apply Hconsumes in Hextract. lia.
Qed.

Lemma split_line_shorter buffer :
  forall line rest,
    split_line buffer = Some (line, rest) ->
    (String.length rest < String.length buffer)%nat.
Proof.
  induction buffer as [|c buffer IH]; intros line rest Hsplit; [discriminate|].
  simpl in Hsplit. destruct (Ascii.eqb c "010").
  - injection Hsplit as _ <-. simpl. lia.
  - destruct (split_line buffer) as [[l r]|]; [|discriminate].
    injection Hsplit as _ <-. specialize (IH l r eq_refl). simpl. lia.
Qed.

Lemma line_codec_drain_terminates fuel s :
  (String.length (_receive_buffer s) < fuel)%nat ->
  fst (@drain LineCodec fuel s) <> OutOfFuel.
Proof.
  apply (@drain_terminates LineCodec).
  intros buffer message rest. simpl.
  destruct (split_line buffer) as [[l r]|] eqn:Hsplit; [|discriminate].
  intros Hextract. injection Hextract as _ <-.
  apply (split_line_shorter buffer l r Hsplit).
Qed.

Lemma append_empty_r (s : string) : s +:+ "" = s.
Proof.
  induction s as [|c t IH]; [reflexivity|].
  change (String c (t +:+ "") = String c t). f_equal. exact IH.
Qed.

Lemma set_receive_buffer_same s : set_receive_buffer (_receive_buffer s) s = s.
Proof. destruct s; reflexivity. Qed.

(** The four ways one round of the loop of [on_data] can go. *)
Lemma drain_stop `{Codec} n t :
  has_complete_message (_receive_buffer t) = false ->
  drain n t = (Return tt, t).
Proof.
  intros Hmore. destruct n; simpl; unfold _has_message; run; rewrite Hmore;
    reflexivity.
Qed.

Lemma drain_out `{Codec} t :
  has_complete_message (_receive_buffer t) = true ->
  drain 0 t = (OutOfFuel, t).
Proof. intros Hmore. simpl. unfold _has_message. run. rewrite Hmore. reflexivity. Qed.

Lemma drain_error `{Codec} n t e :
  has_complete_message (_receive_buffer t) = true ->
  extract_message (_receive_buffer t) = inl e ->
  drain (S n) t = (Raise e, t).
Proof.
  intros Hmore Hex. simpl. unfold _has_message, _parse_message. run.
  rewrite Hmore, Hex. reflexivity.
Qed.

Lemma drain_step `{Codec} n t m rest :
  has_complete_message (_receive_buffer t) = true ->
  extract_message (_receive_buffer t) = inr (m, rest) ->
  drain (S n) t = drain n (spawn (Task_on_raw m) (set_receive_buffer rest t)).
Proof.
  intros Hmore Hex. simpl. unfold _has_message, _parse_message. run.
  rewrite Hmore, Hex. run.
  destruct (drain n _) as [[[]|e|] t']; reflexivity.
Qed.

Lemma on_data_unfold `{Codec} n d t :
  on_data n d t = drain n (set_receive_buffer (_receive_buffer t +:+ d) t).
Proof. reflexivity. Qed.

(** The loop of [on_data] touches the buffer and the task queue only. *)
Lemma drain_frame `{Codec} :
  forall n t,
    channels (snd (drain n t)) = channels t
    /\ users (snd (drain n t)) = users t
    /\ connection (snd (drain n t)) = connection t
    /\ _reconnect_attempts (snd (drain n t)) = _reconnect_attempts t
    /\ trace (snd (drain n t)) = trace t
    /\ exists messages,
         tasks (snd (drain n t)) = (tasks t ++ map Task_on_raw messages)%list.
Proof.
  assert (Hstop : forall t : Client,
            channels t = channels t /\ users t = users t
            /\ connection t = connection t
            /\ _reconnect_attempts t = _reconnect_attempts t
            /\ trace t = trace t
            /\ exists messages,
                 tasks t = (tasks t ++ map Task_on_raw messages)%list).
  { intros t. repeat split. exists []. simpl. rewrite app_nil_r. reflexivity. }
  induction n as [|n IH]; intros t.
  - destruct (has_complete_message (_receive_buffer t)) eqn:Hmore.
    + rewrite (drain_out t Hmore). apply Hstop.
    + rewrite (drain_stop 0 t Hmore). apply Hstop.
  - destruct (has_complete_message (_receive_buffer t)) eqn:Hmore.
    + destruct (extract_message (_receive_buffer t)) as [e|[m rest]] eqn:Hex.
      * rewrite (drain_error n t e Hmore Hex). apply Hstop.
      * rewrite (drain_step n t m rest Hmore Hex).
        destruct (IH (spawn (Task_on_raw m) (set_receive_buffer rest t)))
          as (Hc & Hu & Hconn & Ha & Htr & ms & Hts).
        repeat split; try assumption.
        exists (m :: ms). rewrite Hts. simpl. rewrite <- app_assoc.
        reflexivity.
    + rewrite (drain_stop (S n) t Hmore). apply Hstop.
Qed.

(** When the loop of [on_data] returns, the buffer holds no complete
    message any more. *)
Lemma drain_returns_drained `{Codec} :
  forall n t,
    fst (drain n t) = Return tt ->
    has_complete_message (_receive_buffer (snd (drain n t))) = false.
Proof.
  induction n as [|n IH]; intros t.
  - destruct (has_complete_message (_receive_buffer t)) eqn:Hmore.
    + rewrite (drain_out t Hmore). discriminate.
    + rewrite (drain_stop 0 t Hmore). intros _. exact Hmore.
  - destruct (has_complete_message (_receive_buffer t)) eqn:Hmore.
    + destruct (extract_message (_receive_buffer t)) as [e|[m rest]] eqn:Hex.
      * rewrite (drain_error n t e Hmore Hex). discriminate.
      * rewrite (drain_step n t m rest Hmore Hex). apply IH.
    + rewrite (drain_stop (S n) t Hmore). intros _. exact Hmore.
Qed.

Lemma on_data_keeps_connected `{Codec} n d t :
  connected (snd (on_data n d t)) = connected t.
Proof.
  rewrite on_data_unfold. unfold connected.
  destruct (drain_frame n (set_receive_buffer (_receive_buffer t +:+ d) t))
    as (_ & _ & Hconn & _).
  rewrite Hconn. reflexivity.
Qed.

(** C1: whatever the handler resolved for a message raises is caught in
    [on_raw]: the call returns, having logged the failure on top of the
    state the handler left, and no exception leaves [on_raw] for any
    message.  The connection, the receive buffer and the scheduled tasks are
    as the handler left them, so a connected client stays connected.  The
    tasks of the following messages run from that state, each calling the
    handler resolved for its message, none of them raising.  And [on_data]
    goes on extracting from that state: a complete message at the head of
    what is buffered is taken out of the buffer and an [on_raw] task is
    scheduled for it behind the tasks already there, the loop going on with
    the rest; no complete message is left when it returns, the client is
    still connected, and the outcome is the one there would have been
    without the failure. *)
Theorem handler_failure_contained `{Text} `{Codec}
    (defined : string -> option Handler) (message : Message)
    (s s1 : Client) (e : exn)
    (Hraise : resolve defined message message (entering_handler message s)
              = (Raise e, s1)) :
  let s' := failure_logged message s1 in
  on_raw defined message s = (Return tt, s')
  /\ (forall m t e', fst (on_raw defined m t) <> Raise e')
  /\ connection s' = connection s1
  /\ (connected s1 = true -> connected s' = true)
  /\ _receive_buffer s' = _receive_buffer s1
  /\ tasks s' = tasks s1
  /\ (forall rest,
        run_on_raw_tasks defined (message :: rest) s
        = run_on_raw_tasks defined rest s')
  /\ (forall rest t e', fst (run_on_raw_tasks defined rest t) <> Raise e')
  /\ (forall m t,
        on_raw defined m t
        = try_except (resolve defined m m)
            (fun _ => modify (failure_logged m))
            (entering_handler m t))
  /\ (forall fuel data next rest,
        has_complete_message (_receive_buffer s1 +:+ data) = true ->
        extract_message (_receive_buffer s1 +:+ data) = inr (next, rest) ->
        on_data (S fuel) data s'
        = drain fuel (spawn (Task_on_raw next) (set_receive_buffer rest s'))
        /\ exists later,
             tasks (snd (on_data (S fuel) data s'))
             = (tasks s1 ++ Task_on_raw next :: map Task_on_raw later)%list)
  /\ (forall fuel data,
        has_complete_message (_receive_buffer s1 +:+ data) = false ->
        on_data fuel data s'
        = (Return tt,
           set_receive_buffer (_receive_buffer s1 +:+ data) s'))
  /\ (forall fuel data,
        fst (on_data fuel data s') = Return tt ->
        has_complete_message (_receive_buffer (snd (on_data fuel data s')))
        = false)
  /\ (forall fuel data,
        connected (snd (on_data fuel data s')) = connected s1)
  /\ (forall fuel data,
        on_data fuel data s'
        = (fst (on_data fuel data s1),
           failure_logged message (snd (on_data fuel data s1)))).
Proof.
  cbv zeta.
  assert (Hrun : on_raw defined message s
                 = (Return tt, failure_logged message s1)).
  { rewrite on_raw_resolved. unfold try_except. rewrite Hraise. reflexivity. }
  split; [exact Hrun|].
  split; [intros m t e'; apply on_raw_never_raises|].
  split; [reflexivity|]. split; [intros Hc; exact Hc|].
  split; [reflexivity|]. split; [reflexivity|].
  split; [|split; [|split; [|split; [|split; [|split; [|split]]]]]].
  - intros rest. unfold run_on_raw_tasks. simpl. unfold bind at 1.
    rewrite Hrun. reflexivity.
  - intros rest t e'. apply run_on_raw_tasks_never_raises.
  - intros m t. apply on_raw_resolved.
  - intros fuel data next rest Hmore Hextract.
    rewrite on_data_unfold.
    set (buffered := set_receive_buffer
                       (_receive_buffer (failure_logged message s1) +:+ data)
                       (failure_logged message s1)).
    assert (Hstep : drain (S fuel) buffered
                    = drain fuel (spawn (Task_on_raw next)
                                    (set_receive_buffer rest buffered))).
    { apply drain_step; [exact Hmore | exact Hextract]. }
    split; [exact Hstep|].
    rewrite Hstep.
    destruct (drain_frame fuel (spawn (Task_on_raw next)
                                  (set_receive_buffer rest buffered)))
      as (_ & _ & _ & _ & _ & later & Htasks).
    exists later. rewrite Htasks.
    change (tasks (spawn (Task_on_raw next)
                     (set_receive_buffer rest buffered)))
      with (tasks s1 ++ [Task_on_raw next])%list.
    rewrite <- app_assoc. reflexivity.
  - intros fuel data Hmore. rewrite on_data_unfold.
    apply drain_stop. exact Hmore.
  - intros fuel data Hreturns. rewrite on_data_unfold in *.
    apply (drain_returns_drained fuel _ Hreturns).
  - intros fuel data. rewrite on_data_keeps_connected. reflexivity.
  - intros fuel data. apply on_data_emit.
Qed.

Lemma handler_failure_contained_witness :
  let s' := failure_logged (H := AsciiText) privmsg
              (entering_handler privmsg online_client) in
  @on_raw AsciiText failing_privmsg privmsg online_client = (Return tt, s')
  /\ connected s' = true
  /\ exists later,
       tasks (snd (@on_data LineCodec 8 ("lo" +:+ String "010" "PING") s'))
       = (Task_on_raw
            (mkMessage (inr "PRIVMSG #a :hello") [] None "PRIVMSG #a :hello"
               true)
          :: map Task_on_raw later).
Proof.
  assert (Hraise : @resolve AsciiText failing_privmsg privmsg privmsg
                     (entering_handler privmsg online_client)
                   = (Raise (OtherError "RuntimeError"),
                      entering_handler privmsg online_client))
    by reflexivity.
  destruct (@handler_failure_contained AsciiText LineCodec failing_privmsg
              privmsg online_client _ _ Hraise)
    as (Hrun & _ & _ & Hconn & _ & _ & _ & _ & _ & Hnext & _).
  cbv zeta. split; [exact Hrun|]. split; [apply Hconn; reflexivity|].
  destruct (Hnext 7%nat ("lo" +:+ String "010" "PING")
              (mkMessage (inr "PRIVMSG #a :hello") [] None
                 "PRIVMSG #a :hello" true)
              "PING" eq_refl eq_refl) as [_ Hlater].
  exact Hlater.
Defined.

(** The scenario of the specification: two messages arrive in one chunk,
    the handler of the first raises; both are extracted, both are
    dispatched, and the client is still connected. *)
Example privmsg_handler_raises :
  let line_feed := String "010" EmptyString in
  let received :=
    snd (@on_data LineCodec 8 ("PRIVMSG" +:+ line_feed +:+ "PING" +:+ line_feed)
           (set_receive_buffer "" online_client)) in
  tasks received = [Task_on_raw privmsg; Task_on_raw ping]
  /\ (let done :=
        @run_on_raw_tasks AsciiText failing_privmsg [privmsg; ping] received in
      fst done = Return tt
      /\ connected (snd done) = true
      /\ trace (snd done)
         = [Log DEBUG "<< %s" [PyStr "PRIVMSG"];
            Log EXCEPTION "Failed to execute %s handler." [PyStr "on_raw_privmsg"];
            Log DEBUG "<< %s" [PyStr "PING"];
            Log WARNING "Unknown command: [%s] %s %s"
              [PyNone; PyStr "PING"; PyList []]]).
Proof. vm_compute. repeat split; reflexivity. Qed.

(** The same scenario, the failure in between two chunks: the message that
    arrives after the handler of the first has failed is extracted and
    dispatched all the same. *)
Example privmsg_handler_raises_between_chunks :
  let line_feed := String "010" EmptyString in
  let first :=
    snd (@on_data LineCodec 8 ("PRIVMSG" +:+ line_feed +:+ "PI")
           (set_receive_buffer "" online_client)) in
  let failed :=
    snd (@run_on_raw_tasks AsciiText failing_privmsg [privmsg] first) in
  let second := @on_data LineCodec 8 ("NG" +:+ line_feed) failed in
  tasks first = [Task_on_raw privmsg]
  /\ _receive_buffer failed = "PI"
  /\ fst second = Return tt
  /\ tasks (snd second) = [Task_on_raw privmsg; Task_on_raw ping]
  /\ _receive_buffer (snd second) = ""
  /\ connected (snd second) = true.
Proof. vm_compute. repeat split; reflexivity. Qed.



(** A client whose [on_unknown] is overridden: a message without a handler
    of its own goes to the override, and nothing is logged about it. *)
Example unknown_command_overridden :
  trace (snd (@on_raw AsciiText quiet_unknown ping fresh_client))
  = [Log DEBUG "<< %s" [PyStr "PING"]]
  /\ trace (snd (@on_raw AsciiText failing_privmsg ping fresh_client))
     = [Log DEBUG "<< %s" [PyStr "PING"];
        Log WARNING "Unknown command: [%s] %s %s"
          [PyNone; PyStr "PING"; PyList []]]
  /\ getattr quiet_unknown "on_unknown" fresh_client
     = (Return (fun _ => ret tt), fresh_client)
  /\ getattr failing_privmsg "on_unknown" fresh_client
     = (Return on_unknown, fresh_client).
Proof. vm_compute. repeat split; reflexivity. Qed.

(** ** More on the entity store *)

Example format_user_mask_examples :
  fst (_format_user_mask "al" two_rooms) = Return "al!alice@example.org"
  /\ fst (_format_user_mask "bob" two_rooms) = Return "bob!*@*"
  /\ fst (_format_user_mask "ghost" two_rooms) = Return "ghost!*@*".
Proof. vm_compute. repeat split; reflexivity. Qed.

(** X1: creating a channel and destroying it again is a round trip:
    [in_channel] answers true in between and false afterwards, the second
    call returns without touching any user, and the channel mapping ends
    as the original one without the name (the original one itself when
    the name was not in use). *)
Theorem create_destroy_channel_round_trip (s : Client) (name : string) :
  let s1 := snd (_create_channel name s) in
  let s2 := snd (_destroy_channel name s1) in
  in_channel name s1 = (Return true, s1)
  /\ _destroy_channel name s1
     = (Return tt, set_channels (delete name (channels s)) s)
  /\ in_channel name s2 = (Return false, s2)
  /\ users s2 = users s
  /\ (channels s !! name = None -> s2 = s).
Proof.
  assert (Hrun : _destroy_channel name (snd (_create_channel name s))
                 = (Return tt, set_channels (delete name (channels s)) s)).
  { unfold _destroy_channel, channel_item, del_channel, _create_channel. run.
    rewrite lookup_insert_eq. run.
    change (ch_users (mkChannel ∅)) with (∅ : gset string).
    rewrite elements_empty. cbn [for_each]. run.
    rewrite lookup_insert_eq. rewrite delete_insert_eq. reflexivity. }
  cbv zeta. rewrite Hrun. cbn [snd].
  split; [|split; [reflexivity|split; [|split]]].
  - unfold in_channel, _create_channel. run. rewrite lookup_insert_eq.
    rewrite bool_decide_eq_true_2 by (eexists; reflexivity). reflexivity.
  - unfold in_channel. run. rewrite lookup_delete_eq.
    rewrite bool_decide_eq_false_2; [reflexivity|].
    intros [x Hx]. discriminate Hx.
  - reflexivity.
  - intros Hnone. rewrite delete_id by exact Hnone. apply set_channels_same.
Qed.

(** X2: creating a user under an accepted nickname and destroying it again
    without naming a channel is a round trip on the users mapping: the
    second call returns, the nickname has no record afterwards and is in
    no channel, and every other record is as before. *)
Theorem create_destroy_user_round_trip (s : Client) (nick : string)
    (Hname : is_user_name nick = true) :
  let s1 := snd (_create_user nick s) in
  users s1 !! nick = Some (mkUser nick None None None)
  /\ _destroy_user nick None s1
     = (Return tt,
        set_users (delete nick (users s))
          (set_channels (discard nick <$> channels s) s))
  /\ (users s !! nick = None ->
      users (snd (_destroy_user nick None s1)) = users s).
Proof.
  unfold is_user_name in Hname. apply negb_true_iff in Hname.
  assert (Hcreate : _create_user nick s
            = (Return tt,
               set_users (<[nick := mkUser nick None None None]> (users s)) s)).
  { unfold _create_user. rewrite Hname. reflexivity. }
  cbv zeta. rewrite Hcreate. cbn [snd].
  assert (Hrun : _destroy_user nick None
                   (set_users (<[nick := mkUser nick None None None]> (users s)) s)
                 = (Return tt,
                    set_users (delete nick (users s))
                      (set_channels (discard nick <$> channels s) s))).
  { rewrite destroy_user_everywhere by reflexivity. cbv zeta.
    cbn [users set_users]. rewrite lookup_insert_eq.
    cbn [users set_users set_channels]. rewrite delete_insert_eq. reflexivity. }
  split; [apply lookup_insert_eq|]. split; [exact Hrun|].
  intros Hnone. rewrite Hrun. cbn [snd users set_users].
  apply delete_id. exact Hnone.
Qed.

Lemma create_destroy_user_round_trip_witness :
  is_user_name "carol" = true
  /\ fst (_destroy_user "carol" None (snd (_create_user "carol" two_rooms)))
     = Return tt.
Proof.
  split; [reflexivity|].
  rewrite (proj1 (proj2 (create_destroy_user_round_trip two_rooms "carol"
                           eq_refl))).
  reflexivity.
Defined.

(** X3: for an existing channel and a nickname that has a record,
    [_destroy_user(nickname, channel)] returns; it takes the nickname out
    of that channel's membership set and leaves every other channel and
    every other user's record alone; the nickname's own record is kept if
    it is a member of another channel and deleted otherwise. *)
Theorem destroy_user_from_channel (s : Client) (nick name : string)
    (ch : Channel) (Hname : name <> "")
    (Hch : channels s !! name = Some ch)
    (Hrecord : is_Some (users s !! nick)) :
  exists s',
    _destroy_user nick (Some name) s = (Return tt, s')
    /\ channels s' !! name = Some (mkChannel (ch_users ch ∖ {[nick]}))
    /\ (forall c, c <> name -> channels s' !! c = channels s !! c)
    /\ (forall u, u <> nick -> users s' !! u = users s !! u)
    /\ users s' !! nick
       = (if in_other_channel nick name (channels s)
          then users s !! nick else None).
Proof.
  destruct Hrecord as [r Hr].
  rewrite (destroy_user_in_channel s nick name ch Hname Hch). cbv zeta.
  rewrite Hr.
  destruct (in_other_channel nick name (channels s)); eexists;
    (split; [reflexivity|]); cbn [channels users set_channels set_users].
  - split; [apply lookup_insert_eq|].
    split; [intros c Hc; apply lookup_insert_ne; congruence|].
    split; [reflexivity | exact Hr].
  - split; [apply lookup_insert_eq|].
    split; [intros c Hc; apply lookup_insert_ne; congruence|].
    split; [intros u Hu; apply lookup_delete_ne; congruence|].
    apply lookup_delete_eq.
Qed.

Lemma destroy_user_from_channel_witness :
  exists s',
    _destroy_user "al" (Some "#a") two_rooms = (Return tt, s')
    /\ users s' !! "al" = users two_rooms !! "al".
Proof.
  destruct (destroy_user_from_channel two_rooms "al" "#a" (room ["bob"; "al"]))
    as (s' & Hrun & _ & _ & _ & Hal).
  - discriminate.
  - vm_compute. reflexivity.
  - eexists. vm_compute. reflexivity.
  - exists s'. split; [exact Hrun|]. rewrite Hal.
    replace (in_other_channel "al" "#a" (channels two_rooms)) with true
      by (vm_compute; reflexivity).
    reflexivity.
Defined.

Lemma in_other_channel_false nickname name chs :
  in_other_channel nickname name chs = false ->
  forall c ch, c <> name -> chs !! c = Some ch -> nickname ∉ ch_users ch.
Proof.
  intros Hfalse c ch Hne Hc Hin.
  assert (Htrue : in_other_channel nickname name chs = true)
    by (apply in_other_channel_true; exists c, ch; auto).
  congruence.
Qed.

(** X4: the store stays consistent under [_destroy_user(nickname,
    channel)]: if user records exist exactly for the nicknames that are in
    some channel, then for an existing channel and a nickname with a record
    the call returns and the same holds afterwards. *)
Theorem destroy_user_keeps_consistency (s : Client) (nick name : string)
    (ch : Channel) (Hname : name <> "")
    (Hch : channels s !! name = Some ch)
    (Hrecord : is_Some (users s !! nick))
    (Hconsistent : store_consistent s) :
  exists s',
    _destroy_user nick (Some name) s = (Return tt, s')
    /\ store_consistent s'.
Proof.
  destruct Hconsistent as [Hmr Hrm]. destruct Hrecord as [r Hr].
  rewrite (destroy_user_in_channel s nick name ch Hname Hch). cbv zeta.
  rewrite Hr.
  destruct (in_other_channel nick name (channels s)) eqn:Hother; eexists;
    (split; [reflexivity|]); split.
  - (* members are recorded; the record of [nick] stays *)
    intros c x u Hc Hu. cbn [channels users set_channels] in *.
    destruct (decide (c = name)) as [->|Hne].
    + rewrite lookup_insert_eq in Hc. injection Hc as <-.
      apply (Hmr name ch u Hch). simpl in Hu. set_solver.
    + rewrite lookup_insert_ne in Hc by congruence. apply (Hmr c x u Hc Hu).
  - intros u Hu. cbn [channels users set_channels] in *.
    destruct (decide (u = nick)) as [->|Hun].
    + apply in_other_channel_true in Hother as (c & x & Hne & Hc & Hin).
      exists c, x. split; [|exact Hin].
      rewrite lookup_insert_ne by congruence. exact Hc.
    + destruct (Hrm u Hu) as (c & x & Hc & Hin).
      destruct (decide (c = name)) as [->|Hne].
      * exists name, (discard nick ch). split; [apply lookup_insert_eq|].
        assert (x = ch) by congruence. subst x. simpl. set_solver.
      * exists c, x. split; [|exact Hin].
        rewrite lookup_insert_ne by congruence. exact Hc.
  - (* the record of [nick] goes, and [nick] is in no channel any more *)
    intros c x u Hc Hu. cbn [channels users set_channels set_users] in *.
    assert (Hun : u <> nick).
    { intros ->. destruct (decide (c = name)) as [->|Hne].
      - rewrite lookup_insert_eq in Hc. injection Hc as <-.
        simpl in Hu. set_solver.
      - rewrite lookup_insert_ne in Hc by congruence.
        apply (in_other_channel_false nick name (channels s) Hother c x Hne Hc Hu). }
    rewrite lookup_delete_ne by congruence.
    destruct (decide (c = name)) as [->|Hne].
    + rewrite lookup_insert_eq in Hc. injection Hc as <-.
      apply (Hmr name ch u Hch). simpl in Hu. set_solver.
    + rewrite lookup_insert_ne in Hc by congruence. apply (Hmr c x u Hc Hu).
  - intros u Hu. cbn [channels users set_channels set_users] in *.
    assert (Hun : u <> nick).
    { intros ->. rewrite lookup_delete_eq in Hu. destruct Hu as [? Hu].
      discriminate Hu. }
    rewrite lookup_delete_ne in Hu by congruence.
    destruct (Hrm u Hu) as (c & x & Hc & Hin).
    destruct (decide (c = name)) as [->|Hne].
    + exists name, (discard nick ch). split; [apply lookup_insert_eq|].
      assert (x = ch) by congruence. subst x. simpl. set_solver.
    + exists c, x. split; [|exact Hin].
      rewrite lookup_insert_ne by congruence. exact Hc.
Qed.

(** Consistency of a concrete store can be computed. *)
Lemma store_consistent_check (s : Client) :
  bool_decide
    (map_Forall (λ _ ch, set_Forall (λ u, is_Some (users s !! u)) (ch_users ch))
       (channels s)) = true ->
  bool_decide
    (map_Forall (λ u _, map_Exists (λ _ ch, u ∈ ch_users ch) (channels s))
       (users s)) = true ->
  store_consistent s.
Proof.
  intros Hm Hr. apply bool_decide_eq_true in Hm, Hr. split.
  - intros c ch u Hc Hu. apply (Hm c ch Hc u Hu).
  - intros u [r Hu]. destruct (Hr u r Hu) as (c & ch & Hc & Hin).
    exists c, ch. auto.
Qed.

Lemma two_rooms_consistent : store_consistent two_rooms.
Proof. apply store_consistent_check; vm_compute; reflexivity. Qed.

Lemma destroy_user_keeps_consistency_witness :
  exists s',
    _destroy_user "bob" (Some "#a") two_rooms = (Return tt, s')
    /\ store_consistent s'.
Proof.
  apply (destroy_user_keeps_consistency two_rooms "bob" "#a"
           (room ["bob"; "al"])).
  - discriminate.
  - vm_compute. reflexivity.
  - eexists. vm_compute. reflexivity.
  - apply store_consistent_check; vm_compute; reflexivity.
Defined.

(** X5: on a consistent store, [_destroy_channel] of an existing channel
    with a non-empty name always returns, and the store is consistent
    again afterwards: no record is left behind for a nickname that was
    only in the destroyed channel, and no member of another channel loses
    its record. *)
Theorem destroy_channel_keeps_consistency (s : Client) (name : string)
    (ch : Channel) (Hname : name <> "")
    (Hch : channels s !! name = Some ch)
    (Hconsistent : store_consistent s) :
  exists s',
    _destroy_channel name s = (Return tt, s')
    /\ store_consistent s'.
Proof.
  destruct Hconsistent as [Hmr Hrm].
  assert (Hch' : channels s !! name = Some (mkChannel (ch_users ch)))
    by (rewrite Hch; destruct ch; reflexivity).
  destruct (destroy_members name Hname (elements (ch_users ch)) s (ch_users ch))
    as (t & Hrun & Hchs & Hus).
  - exact Hch'.
  - apply NoDup_elements.
  - intros u Hu _. apply (Hmr name ch u Hch). apply elem_of_elements. exact Hu.
  - assert (Ht : is_Some (channels t !! name))
      by (rewrite Hchs, lookup_insert_eq; eexists; reflexivity).
    destruct Ht as [x Ht].
    assert (Hdel : delete name (channels t) = delete name (channels s))
      by (rewrite Hchs; apply delete_insert_eq).
    exists (set_channels (delete name (channels t)) t). split.
    { unfold _destroy_channel, channel_item, del_channel. run.
      rewrite Hch. run. rewrite Hrun. run. rewrite Ht. reflexivity. }
    split.
    + intros c y u Hc Hu. cbn [channels users set_channels] in *.
      rewrite Hdel in Hc. apply lookup_delete_Some in Hc as [Hne Hc].
      rewrite Hus.
      assert (Hother : in_other_channel u name (channels s) = true)
        by (apply in_other_channel_true; exists c, y; auto).
      rewrite Hother.
      destruct (decide (u ∈ elements (ch_users ch))); apply (Hmr c y u Hc Hu).
    + intros u Hu. cbn [channels users set_channels] in *.
      rewrite Hus in Hu. rewrite Hdel.
      destruct (decide (u ∈ elements (ch_users ch))) as [Hin|Hnin].
      * destruct (in_other_channel u name (channels s)) eqn:Hother;
          [|destruct Hu as [? Hu]; discriminate Hu].
        apply in_other_channel_true in Hother as (c & y & Hne & Hc & Hy).
        exists c, y. split; [|exact Hy]. apply lookup_delete_Some. auto.
      * destruct (Hrm u Hu) as (c & y & Hc & Hy).
        exists c, y. split; [|exact Hy]. apply lookup_delete_Some.
        split; [|exact Hc]. intros ->.
        apply Hnin. apply elem_of_elements.
        assert (y = ch) by congruence. subst y. exact Hy.
Qed.

Lemma destroy_channel_keeps_consistency_witness :
  exists s',
    _destroy_channel "#b" two_rooms = (Return tt, s')
    /\ store_consistent s'.
Proof.
  apply (destroy_channel_keeps_consistency two_rooms "#b" (room ["al"])).
  - discriminate.
  - vm_compute. reflexivity.
  - apply store_consistent_check; vm_compute; reflexivity.
Defined.

(** X6: the store stays consistent under a rename: for [old] different
    from [new] where [old] has a record, [_rename_user] returns and user
    records still exist exactly for the nicknames that are in some
    channel. *)
Theorem rename_user_keeps_consistency (s : Client) (old new : string)
    (record : User) (Hne : old <> new)
    (Hrecord : users s !! old = Some record)
    (Hconsistent : store_consistent s) :
  exists s',
    _rename_user old new s = (Return tt, s')
    /\ store_consistent s'.
Proof.
  destruct Hconsistent as [Hmr Hrm].
  eexists. split.
  { unfold _rename_user. run. rewrite Hrecord. run. reflexivity. }
  split.
  - intros c x u Hc Hu. cbn [channels users set_channels set_users] in *.
    rewrite lookup_fmap in Hc.
    destruct (channels s !! c) as [ch|] eqn:Hch; [|discriminate Hc].
    injection Hc as <-.
    destruct (decide (u = new)) as [->|Hun].
    { rewrite lookup_delete_ne by exact Hne. rewrite lookup_insert_eq.
      eexists. reflexivity. }
    assert (Hin : u ∈ ch_users ch /\ u <> old).
    { unfold rename_member in Hu. case_bool_decide as Hold; simpl in Hu.
      - set_solver.
      - split; [exact Hu|]. intros ->. contradiction. }
    destruct Hin as [Hin Huo].
    rewrite lookup_delete_ne by congruence.
    rewrite lookup_insert_ne by congruence.
    apply (Hmr c ch u Hch Hin).
  - intros u Hu. cbn [channels users set_channels set_users] in *.
    assert (Huo : u <> old).
    { intros ->. rewrite lookup_delete_eq in Hu. destruct Hu as [? Hu].
      discriminate Hu. }
    rewrite lookup_delete_ne in Hu by congruence.
    destruct (decide (u = new)) as [->|Hun].
    + destruct (Hrm old) as (c & ch & Hc & Hin); [eexists; exact Hrecord|].
      exists c, (rename_member old new ch).
      split; [rewrite lookup_fmap, Hc; reflexivity|].
      apply (rename_member_spec old new ch Hne). exact Hin.
    + rewrite lookup_insert_ne in Hu by congruence.
      destruct (Hrm u Hu) as (c & ch & Hc & Hin).
      exists c, (rename_member old new ch).
      split; [rewrite lookup_fmap, Hc; reflexivity|].
      unfold rename_member. case_bool_decide; simpl; [|exact Hin].
      set_solver.
Qed.

Lemma rename_user_keeps_consistency_witness :
  exists s',
    _rename_user "al" "alice" two_rooms = (Return tt, s')
    /\ store_consistent s'.
Proof.
  apply (rename_user_keeps_consistency two_rooms "al" "alice"
           (mkUser "al" (Some "alice") None (Some "example.org"))).
  - discriminate.
  - vm_compute. reflexivity.
  - apply store_consistent_check; vm_compute; reflexivity.
Defined.

(** X7: for a nickname that has a record, [_sync_user] returns and merges
    the metadata into that record: a field named in the metadata takes the
    new value, a field not named keeps its old one; no other record and no
    channel changes; and syncing the same metadata a second time changes
    nothing more. *)
Theorem sync_user_merges (s : Client) (nick : string) (metadata : Metadata)
    (record : User) (Hrecord : users s !! nick = Some record) :
  let s' := snd (_sync_user nick metadata s) in
  _sync_user nick metadata s = (Return tt, s')
  /\ users s' !! nick = Some (update_user metadata record)
  /\ (forall username, md_username metadata = Some username ->
        user_username (update_user metadata record) = username)
  /\ (md_username metadata = None ->
        user_username (update_user metadata record) = user_username record)
  /\ (forall other, other <> nick -> users s' !! other = users s !! other)
  /\ channels s' = channels s
  /\ _sync_user nick metadata s' = (Return tt, s').
Proof.
  assert (Hrun : forall t r, users t !! nick = Some r ->
            _sync_user nick metadata t
            = (Return tt,
               set_users (<[nick := update_user metadata r]> (users t)) t)).
  { intros t r Hr. unfold _sync_user. run. rewrite Hr.
    rewrite bool_decide_eq_true_2 by (eexists; reflexivity). run.
    rewrite Hr. reflexivity. }
  cbv zeta. rewrite (Hrun s record Hrecord). cbn [snd users channels set_users].
  split; [reflexivity|]. split; [apply lookup_insert_eq|].
  split; [intros username Hu; unfold update_user; simpl; rewrite Hu; reflexivity|].
  split; [intros Hu; unfold update_user; simpl; rewrite Hu; reflexivity|].
  split; [intros other Ho; apply lookup_insert_ne; congruence|].
  split; [reflexivity|].
  rewrite (Hrun _ (update_user metadata record)) by apply lookup_insert_eq.
  cbn [users set_users]. rewrite insert_insert_eq. f_equal.
  assert (Hidem : update_user metadata (update_user metadata record)
                  = update_user metadata record).
  { unfold update_user. simpl.
    destruct (md_nickname metadata), (md_username metadata),
      (md_realname metadata), (md_hostname metadata); reflexivity. }
  rewrite Hidem. destruct s; reflexivity.
Qed.

Lemma sync_user_merges_witness :
  user_hostname <$>
    (users (snd (_sync_user "bob"
                   (mkMetadata None None None (Some (Some "example.net")))
                   two_rooms)) !! "bob")
  = Some (Some "example.net").
Proof.
  rewrite (proj1 (proj2 (sync_user_merges two_rooms "bob"
                           (mkMetadata None None None (Some (Some "example.net")))
                           (mkUser "bob" None None None) eq_refl))).
  reflexivity.
Defined.

(** X8: for a nickname without a record, [_sync_user] never stores the
    metadata.  For an empty nickname or one with a dot (a server) the users
    mapping is left as it was; for any other nickname a blank record is
    created; either way the call ends in [TypeError], because
    [_create_user] is awaited although it is not a coroutine. *)
Theorem sync_user_unknown (s : Client) (nick : string) (metadata : Metadata)
    (Hunknown : users s !! nick = None) :
  let s' := snd (_sync_user nick metadata s) in
  fst (_sync_user nick metadata s)
    = Raise (TypeError "object NoneType can't be used in 'await' expression")
  /\ (is_user_name nick = false -> s' = s)
  /\ (is_user_name nick = true ->
        users s' = <[nick := mkUser nick None None None]> (users s))
  /\ channels s' = channels s.
Proof.
  cbv zeta. unfold _sync_user, _create_user, is_user_name. run.
  rewrite Hunknown.
  rewrite bool_decide_eq_false_2 by (intros [? Hx]; discriminate Hx).
  destruct (String.eqb nick ""); run;
    [repeat split; intros; try reflexivity; discriminate|].
  destruct (contains_char "." nick); run;
    repeat split; intros; try reflexivity; discriminate.
Qed.

Lemma sync_user_unknown_witness :
  snd (_sync_user "services."
         (mkMetadata None (Some (Some "services")) None None) two_rooms)
  = two_rooms.
Proof.
  apply (sync_user_unknown two_rooms "services."
           (mkMetadata None (Some (Some "services")) None None)).
  - vm_compute. reflexivity.
  - reflexivity.
Defined.

(** X9: the mask of a nickname without a record is [nick!*@*], and a
    rename carries the mask over: after [_rename_user(old, new)] for [old]
    different from [new], the mask of [new] has the user and host parts
    that the mask of [old] had, and [old] is back to [old!*@*]. *)
Theorem format_user_mask_rename (s : Client) (old new : string)
    (record : User) (Hne : old <> new)
    (Hrecord : users s !! old = Some record) :
  let s' := snd (_rename_user old new s) in
  let user := or_star (user_username record) in
  let host := or_star (user_hostname record) in
  _format_user_mask old s
    = (Return (_format_host_mask (user_nickname record) user host), s)
  /\ _format_user_mask new s' = (Return (_format_host_mask new user host), s')
  /\ _format_user_mask old s' = (Return (_format_host_mask old "*" "*"), s')
  /\ (forall nick t, users t !! nick = None ->
        _format_user_mask nick t = (Return (_format_host_mask nick "*" "*"), t)).
Proof.
  assert (Hrun : _rename_user old new s =
            (Return tt,
             set_channels (rename_member old new <$> channels s)
               (set_users
                  (delete old
                     (<[new := mkUser new (user_username record)
                                 (user_realname record) (user_hostname record)]>
                        (users s))) s))).
  { unfold _rename_user. run. rewrite Hrecord. run. reflexivity. }
  assert (Hblank : forall nick t, users t !! nick = None ->
            _format_user_mask nick t
            = (Return (_format_host_mask nick "*" "*"), t)).
  { intros nick t Hnone. unfold _format_user_mask. run. rewrite Hnone.
    reflexivity. }
  cbv zeta. rewrite Hrun. cbn [snd].
  split; [|split; [|split; [|exact Hblank]]].
  - unfold _format_user_mask. run. rewrite Hrecord. reflexivity.
  - unfold _format_user_mask. run.
    rewrite lookup_delete_ne by exact Hne. rewrite lookup_insert_eq.
    reflexivity.
  - apply Hblank. cbn [users set_channels set_users]. apply lookup_delete_eq.
Qed.

Lemma format_user_mask_rename_witness :
  fst (_format_user_mask "alice" (snd (_rename_user "al" "alice" two_rooms)))
  = Return "alice!alice@example.org".
Proof.
  rewrite (proj1 (proj2 (format_user_mask_rename two_rooms "al" "alice"
                           (mkUser "al" (Some "alice") None (Some "example.org"))
                           ltac:(discriminate) eq_refl))).
  reflexivity.
Defined.

(** ** More on the life cycle *)

(** What [disconnect] does on a connected client: the transport is shut
    down, the session attributes are reset, then the callback runs. *)
Lemma disconnect_connected `{Transport} (callback : bool -> M unit)
    expected s c c1 :
  connection s = Some c -> conn_connected c = true ->
  Connection_disconnect c = inr c1 ->
  disconnect callback expected s
  = callback expected (snd (_reset_attributes (set_connection (Some c1) s))).
Proof.
  intros Hc Hcc Hdown.
  unfold disconnect, _disconnect, on_connection, connected, _reset_attributes.
  destruct s as [chs us buf top nick net conn enc auto att tr tk].
  cbn [connection] in Hc. subst conn.
  run. rewrite Hcc. run. rewrite Hdown. run.
  destruct (callback expected _) as [[[]|e|] s']; reflexivity.
Qed.

Lemma disconnect_not_connected `{Transport} (callback : bool -> M unit)
    expected s :
  connected s = false -> disconnect callback expected s = (Return tt, s).
Proof. intros Hc. unfold disconnect. run. rewrite Hc. reflexivity. Qed.

(** X10: [disconnect] on a client that is not connected does nothing at
    all, and, with a transport whose [disconnect] clears the connected
    flag, disconnecting is idempotent: after an expected disconnect that
    returned, a second one changes nothing. *)
Theorem disconnect_idempotent `{Transport} (cfg : Config) (fuel : nat)
    (s : Client)
    (Hclears : forall c c', Connection_disconnect c = inr c' ->
                            conn_connected c' = false) :
  (forall expected,
     connected s = false ->
     disconnect (on_disconnect cfg fuel) expected s = (Return tt, s))
  /\ (forall s',
        disconnect (on_disconnect cfg fuel) true s = (Return tt, s') ->
        connected s' = false
        /\ disconnect (on_disconnect cfg fuel) true s' = (Return tt, s')).
Proof.
  split; [intros expected; apply disconnect_not_connected|].
  intros s' Hrun.
  assert (Hdown : connected s' = false).
  { destruct (connected s) eqn:Hconn.
    - unfold connected in Hconn.
      destruct (connection s) as [c|] eqn:Hc; [|discriminate].
      destruct (Connection_disconnect c) as [name|c1] eqn:Hc1.
      + exfalso. revert Hrun.
        unfold disconnect, _disconnect, on_connection, connected. run.
        rewrite Hc, Hconn. run. rewrite Hc. run. rewrite Hc1. discriminate.
      + rewrite (disconnect_connected _ true s c c1 Hc Hconn Hc1) in Hrun.
        rewrite on_disconnect_expected in Hrun. injection Hrun as <-.
        unfold connected. simpl. apply (Hclears c c1 Hc1).
    - rewrite disconnect_not_connected in Hrun by exact Hconn.
      injection Hrun as <-. exact Hconn. }
  split; [exact Hdown|]. apply disconnect_not_connected. exact Hdown.
Qed.

Lemma disconnect_idempotent_witness :
  exists s',
    @disconnect MockTransport (@on_disconnect MockTransport BasicClient_config 1)
      true online_client = (Return tt, s')
    /\ @disconnect MockTransport (@on_disconnect MockTransport BasicClient_config 1)
         true s' = (Return tt, s').
Proof.
  eexists. split; [reflexivity|].
  apply (@disconnect_idempotent MockTransport BasicClient_config 1 online_client).
  - intros c c' Hc. simpl in Hc. injection Hc as <-. reflexivity.
  - reflexivity.
Defined.

(** X11: an expected disconnect of a connected client empties the
    channels, the users and the receive buffer and resets nickname and
    network, but keeps the attempt counter, the auto-join list and the
    encoding, schedules nothing, logs nothing and makes no reconnect
    attempt.  If the transport fails to disconnect, the error goes to the
    caller and nothing has been reset. *)
Theorem disconnect_expected_resets `{Transport} (cfg : Config) (fuel : nat)
    (s : Client) (c : Connection)
    (Hconnection : connection s = Some c)
    (Hconnected : conn_connected c = true) :
  (forall c1,
     Connection_disconnect c = inr c1 ->
     exists s',
       disconnect (on_disconnect cfg fuel) true s = (Return tt, s')
       /\ channels s' = ∅ /\ users s' = ∅ /\ _receive_buffer s' = ""
       /\ nickname s' = DEFAULT_NICKNAME /\ network s' = None
       /\ connection s' = Some c1
       /\ _reconnect_attempts s' = _reconnect_attempts s
       /\ _autojoin_channels s' = _autojoin_channels s
       /\ encoding s' = encoding s
       /\ tasks s' = tasks s /\ trace s' = trace s)
  /\ (forall name,
        Connection_disconnect c = inl name ->
        disconnect (on_disconnect cfg fuel) true s
        = (Raise (OtherError name), s)).
Proof.
  split.
  - intros c1 Hc1.
    rewrite (disconnect_connected _ true s c c1 Hconnection Hconnected Hc1).
    rewrite on_disconnect_expected. eexists. split; [reflexivity|].
    simpl. repeat split; reflexivity.
  - intros name Hfail.
    unfold disconnect, _disconnect, on_connection, connected. run.
    rewrite Hconnection, Hconnected. run. rewrite Hconnection. run.
    rewrite Hfail. reflexivity.
Qed.

Lemma disconnect_expected_resets_witness :
  exists s',
    @disconnect MockTransport (@on_disconnect MockTransport BasicClient_config 1)
      true online_client = (Return tt, s')
    /\ channels s' = ∅.
Proof.
  destruct (@disconnect_expected_resets MockTransport BasicClient_config 1
              online_client
              (mkConnection (Some "irc.example.net") (Some 6667) None true)
              eq_refl eq_refl) as [Hok _].
  destruct (Hok (mkConnection (Some "irc.example.net") (Some 6667) None false)
              eq_refl) as (s' & Hrun & Hchs & _).
  exists s'. split; assumption.
Defined.

(** What [connect(reconnect=True)] does on a client that has a connection
    object which is down. *)
Lemma connect_reconnect_reuses `{Transport} (callback : bool -> M unit)
    hostname port kw s c c' :
  connection s = Some c -> conn_connected c = false ->
  Connection_connect c = inr c' ->
  connect callback hostname port true kw s
  = (Return tt, spawn Task_handle_forever (set_connection (Some c') s)).
Proof.
  intros Hc Hcc Hup.
  unfold connect, disconnect, _connect, on_connection, connected.
  rewrite andb_false_r.
  destruct s as [chs us buf top nick net conn enc auto att tr tk].
  cbn [connection] in Hc. subst conn.
  run. rewrite Hcc. run.
  rewrite bool_decide_eq_true_2 by (eexists; reflexivity). run.
  rewrite Hup. reflexivity.
Qed.

(** X12: [connect(reconnect=True)] on a client whose connection object is
    down reconnects that very object: the hostname, port and keyword
    arguments of the call are ignored, channels, users, buffer, counter,
    auto-join list and encoding are left alone, and the read loop is
    scheduled.  If the transport fails to connect, the error goes to the
    caller and no read loop is scheduled. *)
Theorem connect_reconnect_reuses_connection `{Transport} (cfg : Config)
    (fuel : nat) (hostname : option string) (port : option Z) (kw : Kwargs)
    (s : Client) (c : Connection)
    (Hconnection : connection s = Some c)
    (Hdown : conn_connected c = false) :
  (forall c',
     Connection_connect c = inr c' ->
     connect (on_disconnect cfg fuel) hostname port true kw s
     = (Return tt, spawn Task_handle_forever (set_connection (Some c') s)))
  /\ (forall name,
        Connection_connect c = inl name ->
        connect (on_disconnect cfg fuel) hostname port true kw s
        = (Raise (OtherError name), s)).
Proof.
  split.
  - intros c' Hup. apply (connect_reconnect_reuses _ _ _ _ s c c'); assumption.
  - intros name Hfail.
    unfold connect, disconnect, _connect, on_connection, connected.
    rewrite andb_false_r.
    destruct s as [chs us buf top nick net conn enc auto att tr tk].
    cbn [connection] in Hconnection. subst conn.
    run. rewrite Hdown. run.
    rewrite bool_decide_eq_true_2 by (eexists; reflexivity). run.
    rewrite Hfail. reflexivity.
Qed.

Lemma connect_reconnect_reuses_connection_witness :
  @connect MockTransport (@on_disconnect MockTransport BasicClient_config 1)
    (Some "other.example.org") (Some 7000) true
    (mkKwargs (Some ["#x"]) (Some "latin-1") None) stale_client
  = (Return tt,
     spawn Task_handle_forever
       (set_connection
          (Some (mkConnection (Some "irc.example.net") (Some 6667) None true))
          stale_client)).
Proof.
  apply (@connect_reconnect_reuses_connection MockTransport BasicClient_config 1
           (Some "other.example.org") (Some 7000)
           (mkKwargs (Some ["#x"]) (Some "latin-1") None) stale_client
           (mkConnection (Some "irc.example.net") (Some 6667) None false)
           eq_refl eq_refl).
  reflexivity.
Defined.



Lemma py_index_last {A} (l : list A) (x : A) (s : Client) :
  last l = Some x -> py_index l (-1) s = (Return x, s).
Proof.
  intros Hlast. rewrite last_lookup in Hlast.
  pose proof (lookup_lt_Some _ _ _ Hlast) as Hlen.
  unfold py_index.
  replace (-1 <? 0) with true by reflexivity. cbv iota.
  replace (-1 + Z.of_nat (length l) <? 0) with false
    by (symmetry; apply Z.ltb_ge; lia).
  replace (Z.of_nat (length l) <=? -1 + Z.of_nat (length l)) with false
    by (symmetry; apply Z.leb_gt; lia).
  simpl.
  replace (Z.to_nat (-1 + Z.of_nat (length l))) with (Nat.pred (length l)) by lia.
  rewrite Hlast. reflexivity.
Qed.

Lemma reconnect_delay_any_table_aux (cfg : Config) (s : Client) :
  0 <= _reconnect_attempts s ->
  (RECONNECT_ON_ERROR cfg && RECONNECT_DELAYED cfg = false ->
     _reconnect_delay cfg s = (Return 0, s))
  /\ (RECONNECT_ON_ERROR cfg && RECONNECT_DELAYED cfg = true ->
      RECONNECT_DELAYS cfg = [] ->
      _reconnect_delay cfg s = (Raise IndexError, s)).
Proof.
  intros Hcount. unfold _reconnect_delay. split; [intros ->; reflexivity|].
  intros -> ->. run. simpl.
  replace (Z.of_nat 0 <=? _reconnect_attempts s) with true
    by (symmetry; apply Z.leb_le; lia).
  reflexivity.
Qed.

(** X14: the reconnect delay for any delay table.  With reconnection or
    delayed reconnection switched off the delay is 0.  With both on and a
    counter that is not negative, the delay is the table's entry at the
    counter while the counter is inside the table and the table's last
    entry from then on; with an empty table the computation raises
    [IndexError]. *)
Theorem reconnect_delay_any_table (cfg : Config) (s : Client)
    (Hcount : 0 <= _reconnect_attempts s) :
  (RECONNECT_ON_ERROR cfg && RECONNECT_DELAYED cfg = false ->
     _reconnect_delay cfg s = (Return 0, s))
  /\ (RECONNECT_ON_ERROR cfg && RECONNECT_DELAYED cfg = true ->
      (forall d,
         RECONNECT_DELAYS cfg !! Z.to_nat (_reconnect_attempts s) = Some d ->
         _reconnect_delay cfg s = (Return d, s))
      /\ (forall d,
            Z.of_nat (length (RECONNECT_DELAYS cfg)) <= _reconnect_attempts s ->
            last (RECONNECT_DELAYS cfg) = Some d ->
            _reconnect_delay cfg s = (Return d, s))
      /\ (RECONNECT_DELAYS cfg = [] ->
            _reconnect_delay cfg s = (Raise IndexError, s))).
Proof.
  unfold _reconnect_delay. split; [intros ->; reflexivity|].
  intros ->. run. split; [|split].
  - intros d Hd. pose proof (lookup_lt_Some _ _ _ Hd) as Hlen.
    replace (Z.of_nat (length (RECONNECT_DELAYS cfg)) <=? _reconnect_attempts s)
      with false by (symmetry; apply Z.leb_gt; lia).
    apply py_index_nonneg; assumption.
  - intros d Hge Hlast.
    replace (Z.of_nat (length (RECONNECT_DELAYS cfg)) <=? _reconnect_attempts s)
      with true by (symmetry; apply Z.leb_le; lia).
    apply py_index_last. exact Hlast.
  - intros ->. simpl.
    replace (Z.of_nat 0 <=? _reconnect_attempts s) with true
      by (symmetry; apply Z.leb_le; lia).
    reflexivity.
Qed.

Lemma reconnect_delay_any_table_witness :
  _reconnect_delay (mkConfig 300 true None true [1; 2])
    (set_reconnect_attempts 7 fresh_client)
  = (Return 2, set_reconnect_attempts 7 fresh_client).
Proof.
  destruct (reconnect_delay_any_table (mkConfig 300 true None true [1; 2])
              (set_reconnect_attempts 7 fresh_client)) as [_ Hon].
  - simpl. lia.
  - destruct (Hon eq_refl) as (_ & Hlast & _).
    apply Hlast; [simpl; lia | reflexivity].
Defined.

(** X15: with the default configuration the back-off never shrinks: a
    higher attempt counter never gives a shorter delay, and no delay is
    below 5 or above 600 seconds. *)
Theorem reconnect_delay_monotone (s1 s2 : Client) (d1 d2 : Z)
    (Hcount : 0 <= _reconnect_attempts s1 <= _reconnect_attempts s2)
    (Hd1 : fst (_reconnect_delay BasicClient_config s1) = Return d1)
    (Hd2 : fst (_reconnect_delay BasicClient_config s2) = Return d2) :
  d1 <= d2 /\ 5 <= d1 /\ d2 <= 600.
Proof.
  rewrite (reconnect_delay_lookup BasicClient_config s1) in Hd1
    by (reflexivity || lia).
  rewrite (reconnect_delay_lookup BasicClient_config s2) in Hd2
    by (reflexivity || lia).
  simpl in Hd1, Hd2. injection Hd1 as <-. injection Hd2 as <-.
  set (n1 := _reconnect_attempts s1) in *.
  set (n2 := _reconnect_attempts s2) in *.
  assert (H1 : n1 = 0 \/ n1 = 1 \/ n1 = 2 \/ n1 = 3 \/ n1 = 4 \/ n1 = 5 \/ 6 <= n1)
    by lia.
  assert (H2 : n2 = 0 \/ n2 = 1 \/ n2 = 2 \/ n2 = 3 \/ n2 = 4 \/ n2 = 5 \/ 6 <= n2)
    by lia.
  assert (Hbig : forall n, 6 <= n ->
            default 600 ([5; 5; 10; 30; 120; 600] !! Z.to_nat n) = 600).
  { intros n Hn. rewrite lookup_ge_None_2 by (simpl; lia). reflexivity. }
  destruct H1 as [E1|[E1|[E1|[E1|[E1|[E1|E1]]]]]];
    destruct H2 as [E2|[E2|[E2|[E2|[E2|[E2|E2]]]]]];
    try (exfalso; lia);
    first [rewrite E1 | rewrite (Hbig n1 E1)];
    first [rewrite E2 | rewrite (Hbig n2 E2)];
    simpl; lia.
Qed.

Lemma reconnect_delay_monotone_witness : 10 <= 120.
Proof.
  apply (reconnect_delay_monotone (set_reconnect_attempts 2 fresh_client)
           (set_reconnect_attempts 4 fresh_client) 10 120).
  - simpl. lia.
  - reflexivity.
  - reflexivity.
Defined.

(** X16: when [on_disconnect] does not reconnect.  After an expected
    disconnect it does nothing.  After an unexpected one with reconnection
    switched off it only logs that it gives up, whatever the counter and
    the maximum are.  And with delayed reconnection on an empty delay
    table it raises [IndexError] before the counter is incremented and
    before any reconnect. *)
Theorem on_disconnect_without_reconnect `{Transport} (cfg : Config)
    (fuel : nat) (s : Client) :
  on_disconnect cfg fuel true s = (Return tt, s)
  /\ (RECONNECT_ON_ERROR cfg = false ->
        on_disconnect cfg fuel false s
        = (Return tt, emit (Log ERROR "Unexpected disconnect. Giving up." []) s))
  /\ (RECONNECT_ON_ERROR cfg = true -> RECONNECT_DELAYED cfg = true ->
      RECONNECT_DELAYS cfg = [] ->
      match RECONNECT_MAX_ATTEMPTS cfg with
      | None => true
      | Some limit => _reconnect_attempts s <? limit
      end = true ->
      0 <= _reconnect_attempts s ->
        on_disconnect cfg fuel false s = (Raise IndexError, s)).
Proof.
  split; [rewrite on_disconnect_expected; reflexivity|]. split.
  - intros Hoff. destruct fuel; cbn [on_disconnect]; run; rewrite Hoff;
      reflexivity.
  - intros Hon Hdelayed Htable Hmax Hcount.
    assert (Hdelay : _reconnect_delay cfg s = (Raise IndexError, s)).
    { destruct (reconnect_delay_any_table_aux cfg s Hcount) as [_ Hboth].
      apply Hboth; [rewrite Hon, Hdelayed; reflexivity | exact Htable]. }
    destruct fuel; cbn [on_disconnect]; run; rewrite Hon, Hmax; run;
      rewrite Hdelay; reflexivity.
Qed.

Lemma on_disconnect_without_reconnect_witness :
  @on_disconnect MockTransport (mkConfig 300 false (Some 3) true [5]) 1 false
    online_client
  = (Return tt,
     emit (Log ERROR "Unexpected disconnect. Giving up." []) online_client).
Proof.
  apply (@on_disconnect_without_reconnect MockTransport
           (mkConfig 300 false (Some 3) true [5]) 1 online_client).
  reflexivity.
Defined.

(** X17: without a maximum ([RECONNECT_MAX_ATTEMPTS = None]) the client
    never gives up: at every counter from 0 on, an unexpected disconnect
    increments the counter and goes on as [connect(reconnect=True)], from
    counter 6 on with the last delay of the default table. *)
Theorem unbounded_reconnect_never_gives_up `{Transport} (cfg : Config)
    (fuel : nat) (s : Client)
    (Hon : RECONNECT_ON_ERROR cfg = true)
    (Hdelayed : RECONNECT_DELAYED cfg = true)
    (Htable : RECONNECT_DELAYS cfg = [5; 5; 10; 30; 120; 600])
    (Hmax : RECONNECT_MAX_ATTEMPTS cfg = None)
    (Hcount : 0 <= _reconnect_attempts s) :
  exists delay,
    on_disconnect cfg (S fuel) false s
    = connect (on_disconnect cfg fuel) None None true no_kwargs
        (after_backoff delay s)
    /\ _reconnect_attempts (snd (on_disconnect cfg (S fuel) false s))
       = _reconnect_attempts s + 1
    /\ (6 <= _reconnect_attempts s -> delay = 600).
Proof.
  pose proof (reconnect_delay_lookup cfg s Hon Hdelayed Htable Hcount) as Hdelay.
  set (delay := default 600
                  ([5; 5; 10; 30; 120; 600] !! Z.to_nat (_reconnect_attempts s)))
    in Hdelay.
  assert (Hstep : on_disconnect cfg (S fuel) false s
                  = connect (on_disconnect cfg fuel) None None true no_kwargs
                      (after_backoff delay s)).
  { apply on_disconnect_retry;
      [exact Hon | rewrite Hmax; reflexivity | exact Hdelay]. }
  exists delay. split; [exact Hstep|split].
  - rewrite Hstep. rewrite connect_reconnect_keeps_attempts. reflexivity.
  - intros Hge. unfold delay. rewrite lookup_ge_None_2 by (simpl; lia).
    reflexivity.
Qed.

Lemma unbounded_reconnect_never_gives_up_witness :
  _reconnect_attempts
    (snd (@on_disconnect MockTransport
            (mkConfig 300 true None true [5; 5; 10; 30; 120; 600]) 1 false
            (set_reconnect_attempts 1000 online_client)))
  = 1001.
Proof.
  destruct (@unbounded_reconnect_never_gives_up MockTransport
              (mkConfig 300 true None true [5; 5; 10; 30; 120; 600]) 0
              (set_reconnect_attempts 1000 online_client)
              eq_refl eq_refl eq_refl eq_refl)
    as (delay & _ & Hcount & _).
  - simpl. lia.
  - rewrite Hcount. reflexivity.
Defined.

Lemma disconnect_attempts_nonnegative `{Transport} cfg fuel expected :
  preserves (fun s => 0 <= _reconnect_attempts s)
    (disconnect (on_disconnect cfg fuel) expected).
Proof.
  unfold disconnect, _disconnect, _reset_attributes.
  apply preserves_bind; [apply preserves_pure; reflexivity|]. intros c.
  apply preserves_when.
  apply preserves_bind;
    [apply (preserves_keeps _reconnect_attempts (fun n => 0 <= n));
     apply keeps_on_connection; reflexivity|]. intros _.
  apply preserves_bind;
    [apply preserves_modify; intros s Hs; exact Hs|]. intros _.
  apply on_disconnect_attempts_nonnegative.
Qed.

(** X18: the attempt counter never becomes negative: a counter that is
    not negative stays so through [connect], [disconnect] and
    [on_disconnect], whatever their arguments, the configuration and the
    transport's answers, and whether they return or raise. *)
Theorem attempts_never_negative `{Transport} (cfg : Config) (fuel : nat)
    (s : Client) (Hcount : 0 <= _reconnect_attempts s) :
  (forall expected,
     0 <= _reconnect_attempts (snd (on_disconnect cfg fuel expected s)))
  /\ (forall expected,
        0 <= _reconnect_attempts
               (snd (disconnect (on_disconnect cfg fuel) expected s)))
  /\ (forall hostname port reconnect kw,
        0 <= _reconnect_attempts
               (snd (connect (on_disconnect cfg fuel) hostname port
                       reconnect kw s)))
  /\ 0 <= _reconnect_attempts (snd (on_connect s)).
Proof.
  split; [|split; [|split]].
  - intros expected.
    apply (on_disconnect_attempts_nonnegative cfg fuel expected s Hcount).
  - intros expected.
    apply (disconnect_attempts_nonnegative cfg fuel expected s Hcount).
  - intros hostname port reconnect kw.
    apply (connect_attempts_nonnegative cfg fuel hostname port reconnect kw s
             Hcount).
  - simpl. lia.
Qed.

Lemma attempts_never_negative_witness :
  0 <= _reconnect_attempts online_client
  /\ 0 <= _reconnect_attempts
            (snd (@on_disconnect MockTransport BasicClient_config 1 false
                    online_client)).
Proof.
  assert (Hcount : 0 <= _reconnect_attempts online_client) by (simpl; lia).
  split; [exact Hcount|].
  pose proof (@attempts_never_negative MockTransport BasicClient_config 1
                online_client Hcount) as [Hstep _].
  exact (Hstep false).
Defined.

(** ** More on the dispatch *)

(** X19: [on_data] drains the buffer: whenever it returns, no complete
    message is left in the receive buffer. *)
Theorem on_data_drains `{Codec} (fuel : nat) (data : string) (s s' : Client)
    (Hreturns : on_data fuel data s = (Return tt, s')) :
  has_complete_message (_receive_buffer s') = false.
Proof.
  assert (Hdrain : forall n t t',
            drain n t = (Return tt, t') ->
            has_complete_message (_receive_buffer t') = false).
  { induction n as [|n IH]; intros t t'.
    - destruct (has_complete_message (_receive_buffer t)) eqn:Hmore.
      + rewrite (drain_out t Hmore). discriminate.
      + rewrite (drain_stop 0 t Hmore).
        intros Hrun. injection Hrun as <-. exact Hmore.
    - destruct (has_complete_message (_receive_buffer t)) eqn:Hmore.
      + destruct (extract_message (_receive_buffer t)) as [e|[m rest]] eqn:Hex.
        * rewrite (drain_error n t e Hmore Hex). discriminate.
        * rewrite (drain_step n t m rest Hmore Hex). apply IH.
      + rewrite (drain_stop (S n) t Hmore).
        intros Hrun. injection Hrun as <-. exact Hmore. }
  rewrite on_data_unfold in Hreturns. apply (Hdrain _ _ _ Hreturns).
Qed.

Lemma on_data_drains_witness :
  @has_complete_message LineCodec
    (_receive_buffer
       (snd (@on_data LineCodec 8 ("PING" +:+ String "010" "PRIV")
               (set_receive_buffer "" online_client))))
  = false.
Proof.
  apply (@on_data_drains LineCodec 8 ("PING" +:+ String "010" "PRIV")
           (set_receive_buffer "" online_client)).
  vm_compute. reflexivity.
Defined.

(** X20: [on_data] only buffers and schedules: it leaves the channels,
    the users, the connection, the attempt counter and the log alone, and
    the only tasks it adds, after those already scheduled, are [on_raw]
    tasks. *)
Theorem on_data_only_schedules `{Codec} (fuel : nat) (data : string)
    (s : Client) :
  let s' := snd (on_data fuel data s) in
  channels s' = channels s /\ users s' = users s
  /\ connection s' = connection s
  /\ _reconnect_attempts s' = _reconnect_attempts s
  /\ trace s' = trace s
  /\ exists messages,
       tasks s' = (tasks s ++ map Task_on_raw messages)%list.
Proof.
  cbv zeta. rewrite on_data_unfold.
  apply (drain_frame fuel (set_receive_buffer (_receive_buffer s +:+ data) s)).
Qed.

(** X21: feeding zero bytes to a client whose buffer holds no complete
    message changes nothing and schedules nothing. *)
Theorem on_data_empty `{Codec} (fuel : nat) (s : Client)
    (Hincomplete : has_complete_message (_receive_buffer s) = false) :
  on_data fuel "" s = (Return tt, s).
Proof.
  rewrite on_data_unfold, append_empty_r, set_receive_buffer_same.
  apply drain_stop. exact Hincomplete.
Qed.

Lemma on_data_empty_witness :
  @on_data LineCodec 0 "" stale_client = (Return tt, stale_client).
Proof.
  apply (@on_data_empty LineCodec 0 stale_client). vm_compute. reflexivity.
Defined.

Lemma length_zeros (n : nat) : String.length (zeros n) = n.
Proof. induction n as [|n IH]; simpl; [reflexivity|]. rewrite IH. reflexivity. Qed.

Lemma length_append (a b : string) :
  String.length (a +:+ b) = (String.length a + String.length b)%nat.
Proof.
  induction a as [|c t IH]; [reflexivity|].
  change (S (String.length (t +:+ b)) = S (String.length t + String.length b)).
  rewrite IH. reflexivity.
Qed.

(** [zfill] pads up to the width and never cuts. *)
Lemma zfill_length (width : nat) (s : string) :
  String.length (zfill width s) = Nat.max width (String.length s).
Proof.
  unfold zfill. destruct s as [|c rest].
  - rewrite length_zeros. simpl. lia.
  - destruct (Ascii.eqb c "+" || Ascii.eqb c "-").
    + change (String.length (String c (zeros (width - String.length (String c rest))
                                        +:+ rest)))
        with (S (String.length (zeros (width - String.length (String c rest))
                                +:+ rest))).
      rewrite length_append, length_zeros. simpl. lia.
    + rewrite length_append, length_zeros. simpl. lia.
Qed.

(** The handler names of the numeric replies 0 to 999 have ten
    characters, and the number can be read back from each. *)
Lemma numeric_handler_names_check :
  forallb (fun n =>
             let name := "on_raw_" +:+ lower (zfill 3 (pretty n)) in
             is_ascii (zfill 3 (pretty n))
             && Nat.eqb (String.length name) 10
             && (numeric_of_handler_name name =? n))
          (seqZ 0 1000) = true.
Proof. vm_compute. reflexivity. Qed.

(** X23: numeric commands are zero-padded to three digits: for the
    replies 0 to 999 the handler name is [on_raw_] followed by exactly
    three characters, and different numbers never share a handler name;
    whatever the number, padding never cuts a digit off. *)
Theorem numeric_handler_names `{Text} (m1 m2 : Message) (n1 n2 : Z)
    (H1 : command m1 = inl n1) (H2 : command m2 = inl n2)
    (Hn1 : 0 <= n1 <= 999) (Hn2 : 0 <= n2 <= 999) :
  String.length (handler_name m1) = 10%nat
  /\ (handler_name m1 = handler_name m2 -> n1 = n2)
  /\ (forall (width : nat) (n : Z),
        (String.length (pretty n) <= String.length (zfill width (pretty n)))%nat).
Proof.
  pose proof numeric_handler_names_check as Hcheck.
  rewrite forallb_forall in Hcheck.
  assert (Hname : forall m n, command m = inl n -> 0 <= n <= 999 ->
            String.length (handler_name m) = 10%nat
            /\ numeric_of_handler_name (handler_name m) = n).
  { intros m n Hm Hn.
    assert (Hin : In n (seqZ 0 1000)).
    { apply list_elem_of_In. apply elem_of_seqZ. lia. }
    specialize (Hcheck n Hin). cbv zeta in Hcheck.
    apply andb_true_iff in Hcheck as [Hcheck Hnum].
    apply andb_true_iff in Hcheck as [Hascii Hlen].
    unfold handler_name. rewrite Hm, (str_lower_ascii _ Hascii).
    split; [apply Nat.eqb_eq; exact Hlen | apply Z.eqb_eq; exact Hnum]. }
  destruct (Hname m1 n1 H1 Hn1) as [Hlen1 Hnum1].
  destruct (Hname m2 n2 H2 Hn2) as [_ Hnum2].
  split; [exact Hlen1|]. split.
  - intros Heq. rewrite <- Hnum1, <- Hnum2, Heq. reflexivity.
  - intros width n. rewrite zfill_length. lia.
Qed.

Lemma numeric_handler_names_witness :
  String.length (@handler_name AsciiText (mkMessage (inl 1) [] None "001" true))
  = 10%nat.
Proof.
  apply (@numeric_handler_names AsciiText (mkMessage (inl 1) [] None "001" true)
           (mkMessage (inl 433) [] None "433" true) 1 433 eq_refl eq_refl).
  - lia.
  - lia.
Defined.

(** X24: a function registered with [event] is found by attribute lookup
    under its own name, whatever the top-level flag, and [on_raw] calls it
    for the messages of that name.  Ordinary lookup of any other name is as
    it was, and so is attribute lookup of every other name, with one
    exception: a function called [on_unknown] also becomes what top-level
    lookup returns for the [on_raw_] names without a handler, and what
    [on_raw] calls for the messages without a handler of their own.  A
    function whose name does not start with [on_]
    is refused with [NameError], and one that is not an [async def] with
    [AssertionError]; the name is looked at first. *)
Theorem event_registers `{Text} (defined : string -> option Handler)
    (func : PyFunction) :
  (String.prefix "on_" (fn_name func) = true ->
   fn_is_coroutine func = true ->
   exists defined',
     event defined func = inr defined'
     /\ (forall s, getattr defined' (fn_name func) s = (Return (fn_call func), s))
     /\ (forall attr,
           attr <> fn_name func -> lookup defined' attr = lookup defined attr)
     /\ (forall message s,
           handler_name message = fn_name func ->
           on_raw defined' message s
           = try_except (fn_call func message)
               (fun _ => modify (failure_logged message))
               (entering_handler message s))
     /\ (forall attr s,
           attr <> fn_name func ->
           fn_name func <> "on_unknown"
           \/ lookup defined attr <> None
           \/ String.prefix "on_raw_" attr = false
           \/ _handler_top_level s = false ->
           getattr defined' attr s = getattr defined attr s)
     /\ (fn_name func = "on_unknown" ->
         (forall attr s,
            String.prefix "on_raw_" attr = true ->
            lookup defined attr = None ->
            _handler_top_level s = true ->
            getattr defined' attr s = (Return (fn_call func), s))
         /\ (forall message s,
               defined (handler_name message) = None ->
               on_raw defined' message s
               = try_except (fn_call func message)
                   (fun _ => modify (failure_logged message))
                   (entering_handler message s))))
  /\ (String.prefix "on_" (fn_name func) = false ->
        event defined func
        = inl (NameError "Event handlers must start with 'on_'."))
  /\ (String.prefix "on_" (fn_name func) = true ->
      fn_is_coroutine func = false ->
        event defined func = inl (AssertionError (fn_name func))).
Proof.
  unfold event. split; [|split].
  - intros Hon ->. rewrite Hon. simpl. eexists. split; [reflexivity|].
    set (defined' := setattr defined (fn_name func) (fn_call func)).
    assert (Hself : defined' (fn_name func) = Some (fn_call func)).
    { unfold defined', setattr. rewrite String.eqb_refl. reflexivity. }
    assert (Hother : forall attr,
              attr <> fn_name func -> defined' attr = defined attr).
    { intros attr Hne. unfold defined', setattr.
      apply String.eqb_neq in Hne. rewrite Hne. reflexivity. }
    assert (Hignored : self__ignored defined' = self__ignored defined).
    { unfold self__ignored. rewrite Hother; [reflexivity|].
      intros Heq. rewrite <- Heq in Hon. vm_compute in Hon. discriminate. }
    split; [|split; [|split; [|split]]].
    + intros s. unfold getattr, lookup. rewrite Hself. reflexivity.
    + intros attr Hne. unfold lookup. rewrite (Hother attr Hne). reflexivity.
    + intros message s Hm. rewrite on_raw_resolved. unfold resolve.
      rewrite Hm, Hself. reflexivity.
    + intros attr s Hne Hcases.
      unfold lookup in Hcases. unfold getattr, lookup, __getattr__.
      rewrite (Hother attr Hne), Hignored.
      destruct (defined attr); [reflexivity|].
      destruct (BasicClient_handlers attr); [reflexivity|].
      destruct Hcases as [Hname|[Hfound|[Hprefix|Hclear]]].
      * unfold self_on_unknown. rewrite (Hother "on_unknown"); [reflexivity|].
        intros Heq. apply Hname. symmetry. exact Heq.
      * exfalso. apply Hfound. reflexivity.
      * rewrite Hprefix. reflexivity.
      * destruct (String.prefix "on_raw_" attr); [|reflexivity].
        run. rewrite Hclear. reflexivity.
    + intros Hname. rewrite Hname in Hself.
      assert (Hnot : forall attr,
                String.prefix "on_raw_" attr = true -> attr <> fn_name func).
      { intros attr Hprefix Heq. rewrite Heq, Hname in Hprefix.
        vm_compute in Hprefix. discriminate. }
      split.
      * intros attr s Hprefix Hundefined Htop.
        unfold getattr, lookup. rewrite (Hother attr (Hnot attr Hprefix)).
        fold (lookup defined attr). rewrite Hundefined.
        unfold __getattr__. rewrite Hprefix. run. rewrite Htop.
        unfold self_on_unknown. rewrite Hself. reflexivity.
      * intros message s Hnone. rewrite on_raw_resolved. unfold resolve.
        rewrite (Hother _ (Hnot _ (handler_name_prefix message))), Hnone.
        unfold self_on_unknown. rewrite Hself. reflexivity.
  - intros ->. reflexivity.
  - intros -> ->. reflexivity.
Qed.

Lemma event_registers_witness :
  (exists defined',
     event failing_privmsg (mkPyFunction "on_raw_ping" true (fun _ => ret tt))
     = inr defined'
     /\ forall s,
          getattr defined' "on_raw_ping" s = (Return (fun _ => ret tt), s))
  /\ (exists defined',
        event failing_privmsg (mkPyFunction "on_unknown" true (fun _ => ret tt))
        = inr defined'
        /\ getattr defined' "on_raw_ping"
             (set_handler_top_level true fresh_client)
           = (Return (fun _ => ret tt),
              set_handler_top_level true fresh_client)).
Proof.
  split.
  - destruct (@event_registers AsciiText failing_privmsg
                (mkPyFunction "on_raw_ping" true (fun _ => ret tt)))
      as [Hok _].
    destruct (Hok eq_refl eq_refl) as (defined' & Hev & Hget & _).
    exists defined'. split; [exact Hev | exact Hget].
  - destruct (@event_registers AsciiText failing_privmsg
                (mkPyFunction "on_unknown" true (fun _ => ret tt)))
      as [Hok _].
    destruct (Hok eq_refl eq_refl)
      as (defined' & Hev & _ & _ & _ & _ & Hunknown).
    destruct (Hunknown eq_refl) as [Hfallback _].
    exists defined'. split; [exact Hev|].
    apply Hfallback; reflexivity.
Defined.

(** ** The read loop *)

(** A coroutine that ends in [return] after a last call of [m]. *)
Lemma bind_unit_ret (m : M unit) (s : Client) :
  (m;; ret tt) s = m s.
Proof. unfold bind, ret. destruct (m s) as [[[]|e|] s']; reflexivity. Qed.

(** What the loop does once a round has no data: an unexpected
    disconnect if the client is still connected, and the end of the loop
    either way. *)
Lemma handle_forever_lost `{Transport} `{Codec} callback ping fuel
    (data : option string) rest s :
  truthy_str data = false ->
  (again <- handle_data callback fuel data;;
   if again then handle_forever callback ping fuel rest else ret tt) s
  = disconnect callback false s.
Proof.
  intros Hdata. unfold handle_data. rewrite Hdata. simpl negb. cbv iota.
  destruct (connected s) eqn:Hconn.
  - unfold bind at 1 2 3. unfold gets at 1. rewrite Hconn. unfold when.
    destruct (disconnect callback false s) as [[[]|e|] s']; reflexivity.
  - rewrite (disconnect_not_connected callback false s Hconn).
    unfold bind at 1 2 3. unfold gets at 1. rewrite Hconn. reflexivity.
Qed.

Lemma handle_forever_not_connected `{Transport} `{Codec} callback ping fuel
    script s :
  connected s = false ->
  handle_forever callback ping fuel script s = (Return tt, s).
Proof.
  intros Hconn. destruct script as [|[d|e] rest]; cbn [handle_forever];
    unfold bind at 1; unfold gets at 1; rewrite Hconn; reflexivity.
Qed.

Lemma handle_forever_data `{Transport} `{Codec} callback ping fuel d rest s :
  connected s = true ->
  handle_forever callback ping fuel (RecvData d :: rest) s
  = (again <- handle_data callback fuel (Some d);;
     if again then handle_forever callback ping fuel rest else ret tt) s.
Proof.
  intros Hconn. cbn [handle_forever].
  unfold bind at 1. unfold gets at 1. rewrite Hconn. reflexivity.
Qed.

Lemma handle_forever_raise `{Transport} `{Codec} callback ping fuel e rest s :
  connected s = true -> is_timeout e = false ->
  handle_forever callback ping fuel (RecvRaise e :: rest) s = (Raise e, s).
Proof.
  intros Hconn He. cbn [handle_forever].
  unfold bind at 1. unfold gets at 1. rewrite Hconn, He. reflexivity.
Qed.

(** X25: how the read loop notices a lost connection.  On a connected
    client each of the following ends the loop in an unexpected
    [disconnect], with the rest of the input unread: a read that gives no
    bytes; a read timeout followed, after the ping went out, by a second
    timeout or a connection reset; a read timeout whose ping itself fails
    with a timeout or a connection reset. *)
Theorem handle_forever_detects_loss `{Transport} `{Codec}
    (callback : bool -> M unit) (ping : M unit) (fuel : nat)
    (rest : list Recv) (s : Client) (Hconnected : connected s = true) :
  handle_forever callback ping fuel (RecvData "" :: rest) s
    = disconnect callback false s
  /\ (forall s1 e,
        ping (emit timeout_warning s) = (Return tt, s1) ->
        is_timeout_or_reset e = true ->
        handle_forever callback ping fuel
          (RecvRaise TimeoutError :: RecvRaise e :: rest) s
        = disconnect callback false s1)
  /\ (forall s1 e,
        ping (emit timeout_warning s) = (Raise e, s1) ->
        is_timeout_or_reset e = true ->
        handle_forever callback ping fuel (RecvRaise TimeoutError :: rest) s
        = disconnect callback false s1).
Proof.
  split; [|split].
  - rewrite handle_forever_data by exact Hconnected.
    apply handle_forever_lost. reflexivity.
  - intros s1 e Hping He. cbn [handle_forever].
    unfold bind at 1. unfold gets at 1. rewrite Hconnected.
    cbn [is_timeout TimeoutError String.eqb Ascii.eqb Bool.eqb andb].
    unfold bind at 1. unfold modify at 1. fold timeout_warning.
    rewrite Hping, He. apply handle_forever_lost. reflexivity.
  - intros s1 e Hping He. cbn [handle_forever].
    unfold bind at 1. unfold gets at 1. rewrite Hconnected.
    cbn [is_timeout TimeoutError String.eqb Ascii.eqb Bool.eqb andb].
    unfold bind at 1. unfold modify at 1. fold timeout_warning.
    rewrite Hping, He. apply handle_forever_lost. reflexivity.
Qed.

Lemma handle_forever_detects_loss_witness :
  @handle_forever MockTransport LineCodec
    (@on_disconnect MockTransport (mkConfig 300 false (Some 3) true [5]) 1)
    (ret tt) 8 [RecvData ""; RecvData "never read"] online_client
  = @disconnect MockTransport
      (@on_disconnect MockTransport (mkConfig 300 false (Some 3) true [5]) 1)
      false online_client.
Proof.
  apply (@handle_forever_detects_loss MockTransport LineCodec).
  reflexivity.
Defined.

(** X26: what escapes the read loop.  On a connected client, an exception
    of the first read other than a timeout (a connection reset, for one)
    leaves [handle_forever] as it is, with the client untouched and still
    connected and no disconnect made; so does an exception of [on_data],
    after which the client is still connected as well; and so does a
    failure of the ping other than a timeout or a reset. *)
Theorem handle_forever_escapes `{Transport} `{Codec}
    (callback : bool -> M unit) (ping : M unit) (fuel : nat)
    (rest : list Recv) (s : Client) (Hconnected : connected s = true) :
  (forall e, is_timeout e = false ->
     handle_forever callback ping fuel (RecvRaise e :: rest) s = (Raise e, s))
  /\ handle_forever callback ping fuel
       (RecvRaise ConnectionResetError :: rest) s
     = (Raise ConnectionResetError, s)
  /\ (forall data e,
        truthy_str (Some data) = true ->
        fst (on_data fuel data s) = Raise e ->
        handle_forever callback ping fuel (RecvData data :: rest) s
        = (Raise e, snd (on_data fuel data s))
        /\ connected (snd (on_data fuel data s)) = true)
  /\ (forall s1 e,
        ping (emit timeout_warning s) = (Raise e, s1) ->
        is_timeout_or_reset e = false ->
        handle_forever callback ping fuel (RecvRaise TimeoutError :: rest) s
        = (Raise e, s1)).
Proof.
  split; [|split; [|split]].
  - intros e He. apply handle_forever_raise; assumption.
  - apply handle_forever_raise; [exact Hconnected | reflexivity].
  - intros data e Hdata Hraise. split.
    + rewrite handle_forever_data by exact Hconnected.
      unfold handle_data. rewrite Hdata. simpl negb. cbv iota.
      unfold bind at 1 2. cbn [default from_option id].
      destruct (on_data fuel data s) as [[[]|e'|] s'] eqn:Hrun;
        simpl in Hraise; try discriminate.
      injection Hraise as ->. reflexivity.
    + rewrite on_data_keeps_connected. exact Hconnected.
  - intros s1 e Hping He. cbn [handle_forever].
    unfold bind at 1. unfold gets at 1. rewrite Hconnected.
    cbn [is_timeout TimeoutError String.eqb Ascii.eqb Bool.eqb andb].
    unfold bind at 1. unfold modify at 1. fold timeout_warning.
    rewrite Hping, He. reflexivity.
Qed.

Lemma handle_forever_escapes_witness :
  @handle_forever MockTransport LineCodec
    (@on_disconnect MockTransport BasicClient_config 1) (ret tt) 8
    [RecvRaise ConnectionResetError] online_client
  = (Raise ConnectionResetError, online_client).
Proof.
  apply (@handle_forever_escapes MockTransport LineCodec
           (@on_disconnect MockTransport BasicClient_config 1) (ret tt) 8 []
           online_client).
  reflexivity.
Defined.



Example read_loop_example :
  let s' :=
    snd (@handle_forever MockTransport LineCodec
           (@on_disconnect MockTransport BasicClient_config 1) (ret tt) 8
           [RecvData ("PING" +:+ String "010" "PRIV");
            RecvData ("MSG" +:+ String "010" "");
            RecvData ""]
           (set_receive_buffer "" online_client)) in
  tasks s' = [Task_on_raw ping; Task_on_raw privmsg; Task_handle_forever]
  /\ connected s' = true
  /\ _reconnect_attempts s' = 1.
Proof. vm_compute. repeat split; reflexivity. Qed.

(** ** The framing of the test suite *)

Lemma substring_all (s : string) : String.substring 0 (String.length s) s = s.
Proof.
  induction s as [|c t IH]; [reflexivity|].
  simpl. f_equal. exact IH.
Qed.

Lemma prefix_empty (s : string) : String.prefix "" s = true.
Proof. destruct s; reflexivity. Qed.

Lemma prefix_crlf_split (buffer : string) :
  String.prefix CRLF buffer = true ->
  buffer = CRLF +:+ String.substring 2 (String.length buffer - 2) buffer.
Proof.
  intros Hprefix.
  destruct buffer as [|a [|b rest]]; unfold CRLF in Hprefix;
    cbn [String.prefix] in Hprefix.
  - discriminate Hprefix.
  - destruct (ascii_dec "013" a); discriminate Hprefix.
  - destruct (ascii_dec "013" a) as [<-|]; [|discriminate Hprefix].
    destruct (ascii_dec "010" b) as [<-|]; [|discriminate Hprefix].
    replace (String.length (String "013" (String "010" rest)) - 2)%nat
      with (String.length rest) by (simpl; lia).
    change (String.substring 2 (String.length rest)
              (String "013" (String "010" rest)))
      with (String.substring 0 (String.length rest) rest).
    rewrite substring_all. reflexivity.
Qed.

Lemma partition_crlf_found (buffer : string) :
  contains_crlf buffer = true ->
  buffer = fst (partition_crlf buffer) +:+ CRLF +:+ snd (partition_crlf buffer)
  /\ contains_crlf (fst (partition_crlf buffer)) = false
  /\ (String.length (snd (partition_crlf buffer)) + 2
      <= String.length buffer)%nat.
Proof.
  induction buffer as [|c rest IH]; [discriminate|].
  intros Hin. cbn [contains_crlf partition_crlf] in *.
  destruct (String.prefix CRLF (String c rest)) eqn:Hprefix.
  - cbn [fst snd]. pose proof (prefix_crlf_split _ Hprefix) as Hsplit.
    split; [exact Hsplit|]. split; [reflexivity|].
    set (tail := String.substring 2 (String.length (String c rest) - 2)
                   (String c rest)) in *.
    pose proof (f_equal String.length Hsplit) as Hlen.
    rewrite length_append in Hlen. change (String.length CRLF) with 2%nat in Hlen.
    lia.
  - simpl in Hin. destruct (IH Hin) as (Hsplit & Hhead & Hlen).
    destruct (partition_crlf rest) as [message data]. cbn [fst snd] in *.
    split; [|split].
    + change (String c rest = String c (message +:+ CRLF +:+ data)).
      f_equal. exact Hsplit.
    + cbn [contains_crlf]. rewrite Hhead, orb_false_r.
      (* a separator at the head of [c :: message] would be one at the
         head of the buffer *)
      destruct (String.prefix CRLF (String c message)) eqn:Hp; [|reflexivity].
      exfalso. rewrite Hsplit in Hprefix.
      unfold CRLF in Hp, Hprefix. cbn [String.prefix] in Hp, Hprefix.
      destruct (ascii_dec "013" c); [|discriminate Hp].
      destruct message as [|m0 message]; [discriminate Hp|].
      change (String m0 message +:+ String "013" (String "010" "") +:+ data)
        with (String m0 (message +:+ String "013" (String "010" "") +:+ data))
        in Hprefix.
      cbn [String.prefix] in Hp, Hprefix.
      destruct (ascii_dec "010" m0); [|discriminate Hp].
      rewrite prefix_empty in Hprefix. discriminate Hprefix.
    + simpl. lia.
Qed.

Lemma partition_crlf_missing (buffer : string) :
  contains_crlf buffer = false -> partition_crlf buffer = (buffer, "").
Proof.
  induction buffer as [|c rest IH]; [reflexivity|].
  intros Hin. cbn [contains_crlf partition_crlf] in *.
  apply orb_false_iff in Hin as [Hprefix Hrest].
  rewrite Hprefix, (IH Hrest). reflexivity.
Qed.

(** X28: the framing of the test suite takes exactly one line off the
    buffer.  When the buffer holds a line end, [mock_parse_message] hands
    the text before the first line end, with the line end put back, to the
    parser and leaves what follows it in the buffer; the buffer gets
    shorter by at least the two bytes of the line end; and the line is
    gone from the buffer also when the parser rejects it.  Called on a
    buffer without a line end, it hands over the whole buffer and leaves
    it empty. *)
Theorem mock_parse_message_takes_a_line (parse : string -> exn + Message)
    (s : Client) :
  let s' := snd (mock_parse_message parse s) in
  (fst (mock_has_message s) = Return true ->
   exists line,
     _receive_buffer s = line +:+ CRLF +:+ _receive_buffer s'
     /\ contains_crlf line = false
     /\ (String.length (_receive_buffer s') + 2
         <= String.length (_receive_buffer s))%nat
     /\ fst (mock_parse_message parse s)
        = match parse (line +:+ CRLF) with
          | inl e => Raise e
          | inr parsed => Return parsed
          end)
  /\ (fst (mock_has_message s) = Return false ->
      _receive_buffer s' = ""
      /\ fst (mock_parse_message parse s)
         = match parse (_receive_buffer s +:+ CRLF) with
           | inl e => Raise e
           | inr parsed => Return parsed
           end).
Proof.
  cbv zeta. unfold mock_has_message, mock_parse_message. split.
  - intros Hhas. simpl in Hhas. injection Hhas as Hhas.
    destruct (partition_crlf_found _ Hhas) as (Hsplit & Hhead & Hlen).
    run. destruct (partition_crlf (_receive_buffer s)) as [message data].
    cbn [fst snd] in *. exists message. run.
    destruct (parse (message +:+ CRLF)); cbn [_receive_buffer];
      repeat split; assumption.
  - intros Hhas. simpl in Hhas. injection Hhas as Hhas.
    run. rewrite (partition_crlf_missing _ Hhas). run.
    destruct (parse (_receive_buffer s +:+ CRLF)); cbn [_receive_buffer];
      split; reflexivity.
Qed.

Lemma mock_parse_message_takes_a_line_witness :
  let parse := fun line : string =>
    inr (mkMessage (inr "PING") [] None line true) : exn + Message in
  let s := set_receive_buffer ("PING" +:+ CRLF +:+ "PRIV") fresh_client in
  fst (mock_has_message s) = Return true
  /\ exists line,
       _receive_buffer s
       = line +:+ CRLF +:+ _receive_buffer (snd (mock_parse_message parse s))
       /\ contains_crlf line = false.
Proof.
  cbv zeta. split; [reflexivity|].
  destruct (mock_parse_message_takes_a_line
              (fun line : string =>
                 inr (mkMessage (inr "PING") [] None line true) : exn + Message)
              (set_receive_buffer ("PING" +:+ CRLF +:+ "PRIV") fresh_client))
    as [Hfound _].
  destruct (Hfound eq_refl) as (line & Hsplit & Hhead & _).
  exists line. split; assumption.
Defined.

Example mock_parse_message_example :
  let parse := fun line : string =>
    inr (mkMessage (inr "PING") [] None line true) : exn + Message in
  let s := set_receive_buffer ("PING" +:+ CRLF +:+ "PRIV") fresh_client in
  _raw <$> (match fst (mock_parse_message parse s) with
            | Return m => Some m
            | _ => None
            end) = Some ("PING" +:+ CRLF)
  /\ _receive_buffer (snd (mock_parse_message parse s)) = "PRIV".
Proof. vm_compute. split; reflexivity. Qed.

Lemma create_destroy_channel_round_trip_witness :
  channels fresh_client !! "#new" = None
  /\ snd (_destroy_channel "#new" (snd (_create_channel "#new" fresh_client)))
     = fresh_client.
Proof.
  split; [reflexivity|].
  apply (create_destroy_channel_round_trip fresh_client "#new").
  reflexivity.
Defined.

(** ** The client pool *)

(** X29: a pool that was filled through [connect] keeps connect arguments
    for exactly its clients: the property holds for the empty pool and is
    kept by [connect] and by [disconnect], however the latter ends; after
    [connect] the client is in the pool with the arguments given, the
    earlier ones being replaced.  A pool constructed with initial clients
    has no arguments for them. *)
Theorem pool_keeps_arguments (p : ClientPool.Pool) (client : string)
    (args : ClientPool.Args) (Hconsistent : pool_consistent p) :
  pool_consistent (ClientPool.__init__ [])
  /\ pool_consistent (ClientPool.connect client args p)
  /\ pool_consistent (snd (ClientPool.disconnect client p))
  /\ ClientPool.__contains__ client (ClientPool.connect client args p) = true
  /\ ClientPool.connect_args (ClientPool.connect client args p) !! client
     = Some args
  /\ (forall initial,
        pool_consistent (ClientPool.__init__ initial) -> initial = []).
Proof.
  unfold pool_consistent in *.
  split; [|split; [|split; [|split; [|split]]]].
  - simpl. rewrite dom_empty_L. reflexivity.
  - simpl. rewrite dom_insert_L, Hconsistent. reflexivity.
  - unfold ClientPool.disconnect. case_bool_decide as Hin; [|exact Hconsistent].
    cbn [ClientPool.connect_args ClientPool.clients].
    destruct (ClientPool.connect_args p !! client) as [a|] eqn:Hargs.
    + cbn [snd ClientPool.connect_args ClientPool.clients].
      rewrite dom_delete_L, Hconsistent. reflexivity.
    + exfalso. apply not_elem_of_dom in Hargs. rewrite Hconsistent in Hargs.
      contradiction.
  - unfold ClientPool.__contains__. simpl.
    apply bool_decide_eq_true. set_solver.
  - simpl. apply lookup_insert_eq.
  - intros initial Hinit. simpl in Hinit. rewrite dom_empty_L in Hinit.
    destruct initial as [|c rest]; [reflexivity|].
    exfalso. simpl in Hinit. set_solver.
Qed.

Lemma pool_keeps_arguments_witness :
  pool_consistent (ClientPool.__init__ [])
  /\ pool_consistent
       (ClientPool.connect "bot"
          (ClientPool.mkArgs (Some "irc.example.net") (Some 6667) false)
          (ClientPool.__init__ [])).
Proof.
  assert (Hempty : pool_consistent (ClientPool.__init__ [])).
  { unfold pool_consistent. simpl. rewrite dom_empty_L. reflexivity. }
  split; [exact Hempty|].
  apply (pool_keeps_arguments (ClientPool.__init__ []) "bot"
           (ClientPool.mkArgs (Some "irc.example.net") (Some 6667) false)
           Hempty).
Defined.

(** X30: [ClientPool.disconnect] never returns normally.  For a client
    that is not in the pool it raises [KeyError] and leaves the pool as it
    was.  For a client in the pool it takes the client and its arguments
    out and then ends in [TypeError], because
    [asyncio.run_coroutine_threadsafe] is called without a loop; on a pool
    that keeps arguments for exactly its clients, [connect] followed by
    [disconnect] of a client that was not in the pool gives the pool back.
    A client from the constructor's list, which has no arguments, is taken
    out of the clients and the call ends in [KeyError]. *)
Theorem pool_disconnect_never_returns (p : ClientPool.Pool) (client : string) :
  fst (ClientPool.disconnect client p) <> Return tt
  /\ (client ∉ ClientPool.clients p ->
        ClientPool.disconnect client p = (Raise (KeyError client), p))
  /\ (forall args,
        client ∈ ClientPool.clients p ->
        ClientPool.connect_args p !! client = Some args ->
        ClientPool.disconnect client p
        = (Raise (TypeError
             "run_coroutine_threadsafe() missing 1 required positional argument: 'loop'"),
           ClientPool.mkPool (ClientPool.clients p ∖ {[client]})
             (delete client (ClientPool.connect_args p))))
  /\ (client ∈ ClientPool.clients p ->
      ClientPool.connect_args p !! client = None ->
        ClientPool.disconnect client p
        = (Raise (KeyError client),
           ClientPool.mkPool (ClientPool.clients p ∖ {[client]})
             (ClientPool.connect_args p)))
  /\ (forall args,
        pool_consistent p -> client ∉ ClientPool.clients p ->
        snd (ClientPool.disconnect client (ClientPool.connect client args p))
        = p).
Proof.
  split; [|split; [|split; [|split]]].
  - unfold ClientPool.disconnect. case_bool_decide; [|discriminate].
    destruct (_ !! client); discriminate.
  - intros Hout. unfold ClientPool.disconnect.
    rewrite bool_decide_eq_false_2 by exact Hout. reflexivity.
  - intros args Hin Hargs. unfold ClientPool.disconnect.
    rewrite bool_decide_eq_true_2 by exact Hin.
    cbn [ClientPool.connect_args ClientPool.clients]. rewrite Hargs.
    reflexivity.
  - intros Hin Hargs. unfold ClientPool.disconnect.
    rewrite bool_decide_eq_true_2 by exact Hin.
    cbn [ClientPool.connect_args ClientPool.clients]. rewrite Hargs.
    reflexivity.
  - intros args Hconsistent Hout. unfold ClientPool.disconnect.
    rewrite bool_decide_eq_true_2 by (simpl; set_solver).
    cbn [ClientPool.connect ClientPool.connect_args ClientPool.clients].
    rewrite lookup_insert_eq.
    cbn [snd ClientPool.connect_args ClientPool.clients].
    destruct p as [cs cargs]. unfold pool_consistent in Hconsistent.
    cbn [ClientPool.connect_args ClientPool.clients] in *. f_equal.
    + set_solver.
    + rewrite delete_insert_eq. apply delete_id.
      apply not_elem_of_dom. rewrite Hconsistent. exact Hout.
Qed.

Lemma pool_disconnect_never_returns_witness :
  ("ghost" ∉ ClientPool.clients (ClientPool.__init__ ["bot"]))
  /\ ClientPool.disconnect "ghost" (ClientPool.__init__ ["bot"])
     = (Raise (KeyError "ghost"), ClientPool.__init__ ["bot"]).
Proof.
  assert (Hout : "ghost" ∉ ClientPool.clients (ClientPool.__init__ ["bot"])).
  { simpl. intros Hin. apply elem_of_union in Hin as [Hin|Hin].
    - apply elem_of_singleton in Hin. discriminate Hin.
    - apply not_elem_of_empty in Hin. exact Hin. }
  split; [exact Hout|].
  exact (proj1 (proj2 (pool_disconnect_never_returns
                         (ClientPool.__init__ ["bot"]) "ghost")) Hout).
Defined.
